(** * Email orchestrator: a shallow embedding of [email-orchestrator-mcp.py]

    The module under study is a tool server with two tools,
    [send_email_direct] and [send_email_from_artifact].  Its four
    functions with behaviour of their own are embedded here:
    [EmailOrchestrator.__init__], [EmailOrchestrator.get_email_artifact],
    [EmailOrchestrator.send_email] and the dispatcher [call_tool].

    Python values are modelled by the inductive [value]; a Python [str] is
    a list of Unicode code points, so that [len] counts characters.
    Exceptions are first-class ([exn]); code that can raise and that talks
    to the mail server lives in the monad [M], whose state is the list of
    messages handed to the mail server so far.  The mail server and the
    datastore are oracles: the development proves its theorems for every
    behaviour they can have. *)

From Stdlib Require Import ZArith String Ascii Decimal.
From stdpp Require Import gmap list.

(** ** Python strings *)

(** A [str] is a sequence of code points. *)
Abbreviation pystr := (list N).

(** An ASCII literal of the source, as a [str]. *)
Definition lit (s : string) : pystr :=
  (fun a => N_of_ascii a) <$> list_ascii_of_string s.

(** U+2705, the mark that opens every success reply. *)
Definition check_mark : pystr := [9989%N].

(** U+274C, the mark that opens every error reply. *)
Definition cross_mark : pystr := [10060%N].

(** The newline written [\n] in the source. *)
Definition nl : pystr := [10%N].

Fixpoint uint_str (d : Decimal.uint) : pystr :=
  match d with
  | Nil => []
  | D0 d => 48%N :: uint_str d
  | D1 d => 49%N :: uint_str d
  | D2 d => 50%N :: uint_str d
  | D3 d => 51%N :: uint_str d
  | D4 d => 52%N :: uint_str d
  | D5 d => 53%N :: uint_str d
  | D6 d => 54%N :: uint_str d
  | D7 d => 55%N :: uint_str d
  | D8 d => 56%N :: uint_str d
  | D9 d => 57%N :: uint_str d
  end.

(** [str(n)] for a non-negative [int], as an f-string renders it. *)
Definition str_nat (n : nat) : pystr := uint_str (Nat.to_uint n).

(** [sep.join(parts)] on strings. *)
Fixpoint join (sep : pystr) (parts : list pystr) : pystr :=
  match parts with
  | [] => []
  | [p] => p
  | p :: ps => p ++ sep ++ join sep ps
  end.

(** ** Python values and exceptions *)

(** The values that reach the server: [None], a string, or a list of
    strings (the shapes the tools' input schemas declare, plus the null a
    JSON object or a datastore row may hold). *)
Inductive value :=
  | VNone
  | VStr (s : pystr)
  | VList (l : list pystr).

#[global] Instance value_eq_dec : EqDecision value.
Proof. solve_decision. Defined.

(** A [dict] with string keys. *)
Abbreviation dict := (gmap pystr value).

(** The exceptions the module raises or meets; each is an [Exception].
    [LibraryError m] is whatever the datastore or mail library raised, of
    which the module only ever uses [str(e)], here [m]. *)
Inductive exn :=
  | ValueError (m : pystr)
  | KeyError (k : pystr)
  | IndexError (m : pystr)
  | TypeError (m : pystr)
  | LibraryError (m : pystr).

(** [str(e)].  A [KeyError] prints the [repr] of its key; the keys looked
    up by subscript are the literals ["to"], ["subject"], ["html_content"]
    and ["artifact_id"], whose [repr] is the key between single quotes. *)
Definition exn_str (e : exn) : pystr :=
  match e with
  | ValueError m => m
  | KeyError k => lit "'" ++ k ++ lit "'"
  | IndexError m => m
  | TypeError m => m
  | LibraryError m => m
  end.

(** Truth value of an object: [None], [""] and [[]] are false. *)
Definition truthy (v : value) : bool :=
  match v with
  | VNone => false
  | VStr s => negb (bool_decide (s = []))
  | VList l => negb (bool_decide (l = []))
  end.

(** [len(v)]. *)
Definition py_len (v : value) : exn + nat :=
  match v with
  | VNone => inl (TypeError (lit "object of type 'NoneType' has no len()"))
  | VStr s => inr (length s)
  | VList l => inr (length l)
  end.

(** The field [k] of [d] is absent, or holds [None], an empty string or
    an empty list. *)
Definition missing (d : dict) (k : pystr) : bool :=
  match d !! k with
  | None => true
  | Some v => negb (truthy v)
  end.

(** [d.get(k, dflt)]. *)
Definition dict_get (d : dict) (k : pystr) (dflt : value) : value :=
  default dflt (d !! k).

(** [len(v)] where it is defined, 0 elsewhere. *)
Definition len_of (v : value) : nat :=
  match py_len v with inr n => n | inl _ => 0 end.

(** [isinstance(v, list)]. *)
Definition is_list (v : value) : bool :=
  match v with VList _ => true | _ => false end.

(** The elements a [for] loop draws from a list value. *)
Definition elements_of (v : value) : list value :=
  match v with VList l => VStr <$> l | _ => [] end.

(** [to if isinstance(to, list) else [to]] (source line 195). *)
Definition recipients_of (to : value) : list value :=
  if is_list to then elements_of to else [to].

(** ** The message and the reply *)

(** The message built by [send_email] (source lines 58-65): three headers
    and one HTML part. *)
Record email := {
  msg_subject : value;
  msg_from : pystr;
  msg_to : value;
  msg_html : value;
}.

(** The dict returned by [send_email] (source lines 73-80). *)
Record SendResult := {
  res_success : bool;
  res_message : pystr;
  res_to : value;
  res_subject : value;
  res_context : value;
  res_content_length : nat;
}.

(** [types.TextContent(type="text", text=...)]. *)
Record TextContent := {
  content_type : pystr;
  text : pystr;
}.

(** ** The monad of the call handling

    The state is the log of the messages handed to the mail server, oldest
    first; a computation ends in a result or in a raised exception. *)

Definition M (A : Type) : Type := list email -> (exn + A) * list email.

Definition ret {A} (a : A) : M A := fun log => (inr a, log).

Definition raise {A} (e : exn) : M A := fun log => (inl e, log).

Definition bind {A B} (m : M A) (k : A -> M B) : M B :=
  fun log =>
    match m log with
    | (inl e, log') => (inl e, log')
    | (inr a, log') => k a log'
    end.

(** [try: body except Exception as e: handler(e)]. *)
Definition try_except {A} (body : M A) (handler : exn -> M A) : M A :=
  fun log =>
    match body log with
    | (inl e, log') => handler e log'
    | (inr a, log') => (inr a, log')
    end.

(** An expression that may raise, inside a computation. *)
Definition lift {A} (r : exn + A) : M A :=
  match r with inl e => raise e | inr a => ret a end.

Notation "'do' x <- m ; k" := (bind m (fun x => k))
  (at level 10, x name, m at level 100, k at level 200).

(** [d[k]]: a missing key raises [KeyError(k)]. *)
Definition subscript (d : dict) (k : pystr) : exn + value :=
  match d !! k with
  | Some v => inr v
  | None => inl (KeyError k)
  end.

(** [l[0]]. *)
Definition first_item {A} (l : list A) : exn + A :=
  match l !! 0 with
  | Some a => inr a
  | None => inl (IndexError (lit "list index out of range"))
  end.

(** The name of a value's type, as error messages print it. *)
Definition type_name (v : value) : pystr :=
  match v with
  | VNone => lit "NoneType"
  | VStr _ => lit "str"
  | VList _ => lit "list"
  end.

(** The items of [sep.join(items)], which must all be strings; [i] is the
    index of the first item of [items] in the joined sequence. *)
Fixpoint str_items (i : nat) (items : list value) : exn + list pystr :=
  match items with
  | [] => inr []
  | VStr s :: rest =>
      match str_items (S i) rest with
      | inl e => inl e
      | inr ss => inr (s :: ss)
      end
  | v :: _ =>
      inl (TypeError (lit "sequence item " ++ str_nat i ++
                      lit ": expected str instance, " ++ type_name v ++
                      lit " found"))
  end.

(** [sep.join(items)] on values. *)
Definition join_values (sep : pystr) (items : list value) : exn + pystr :=
  match str_items 0 items with
  | inl e => inl e
  | inr ss => inr (join sep ss)
  end.

(** ** The orchestrator *)

(** [response.data] of the datastore query
    [table("email_artifacts").select("*").eq("id", artifact_id).execute()],
    or the exception the query raised, given by its [str]. *)
Inductive db_response :=
  | DbRows (rows : list dict)
  | DbFailure (message : pystr).

(** The datastore client, seen through the one query the module makes. *)
Definition Client : Type := value -> db_response.

(** The attributes of an [EmailOrchestrator]. *)
Record EmailOrchestrator := {
  smtp_server : pystr;
  smtp_port : Z;
  smtp_username : pystr;
  smtp_password : pystr;
  supabase_url : pystr;
  supabase_key : pystr;
  supabase : Client;
}.

(** [os.getenv(name)] on the process environment. *)
Definition getenv (env : gmap pystr pystr) (name : pystr) : option pystr :=
  env !! name.

(** [not v] for the optional string [os.getenv] returns. *)
Definition unset (v : option pystr) : bool :=
  match v with
  | None => true
  | Some s => bool_decide (s = [])
  end.

Section Startup.

(** [int(s)] on a string, a built-in. *)
Variable py_int : pystr -> exn + Z.

(** [create_client(url, key)] of the datastore library. *)
Variable create_client : pystr -> pystr -> exn + Client.

(** [EmailOrchestrator.__init__] (source lines 21-38). *)
Definition EmailOrchestrator_init (env : gmap pystr pystr)
  : exn + EmailOrchestrator :=
  let server := default (lit "smtp.gmail.com") (getenv env (lit "SMTP_SERVER")) in
  match py_int (default (lit "587") (getenv env (lit "SMTP_PORT"))) with
  | inl e => inl e
  | inr port =>
      let username := getenv env (lit "SMTP_USERNAME") in
      let password := getenv env (lit "SMTP_PASSWORD") in
      let url := getenv env (lit "SUPABASE_URL") in
      let key := getenv env (lit "SUPABASE_KEY") in
      if unset username || unset password then
        inl (ValueError (lit "SMTP_USERNAME and SMTP_PASSWORD environment variables required"))
      else if unset url || unset key then
        inl (ValueError (lit "SUPABASE_URL and SUPABASE_KEY environment variables required"))
      else
        (* past the two checks the four values are non-empty strings *)
        match create_client (default [] url) (default [] key) with
        | inl e => inl e
        | inr client =>
            inr {| smtp_server := server;
                   smtp_port := port;
                   smtp_username := default [] username;
                   smtp_password := default [] password;
                   supabase_url := default [] url;
                   supabase_key := default [] key;
                   supabase := client |}
        end
  end.

End Startup.

(** ** The declared tools *)

(** One property of a tool's input schema: its name and the default the
    schema declares for it, if any. *)
Record Property := {
  prop_name : pystr;
  prop_default : option value;
}.

(** A [types.Tool]: its name, the properties of its input schema and the
    names the schema requires. *)
Record Tool := {
  tool_name : pystr;
  tool_properties : list Property;
  tool_required : list pystr;
}.

(** [list_tools] (source lines 95-153), descriptions left out. *)
Definition list_tools : list Tool :=
  [ {| tool_name := lit "send_email_direct";
       tool_properties :=
         [ {| prop_name := lit "to"; prop_default := None |};
           {| prop_name := lit "subject"; prop_default := None |};
           {| prop_name := lit "html_content"; prop_default := None |};
           {| prop_name := lit "context"; prop_default := Some (VStr []) |} ];
       tool_required := [lit "to"; lit "subject"; lit "html_content"] |};
    {| tool_name := lit "send_email_from_artifact";
       tool_properties :=
         [ {| prop_name := lit "to"; prop_default := None |};
           {| prop_name := lit "artifact_id"; prop_default := None |} ];
       tool_required := [lit "to"; lit "artifact_id"] |} ].

(** The default a tool's schema declares for one of its properties. *)
Definition declared_default (tool property : pystr) : option value :=
  match List.find (fun t => bool_decide (tool_name t = tool)) list_tools with
  | None => None
  | Some t =>
      match List.find (fun p => bool_decide (prop_name p = property))
              (tool_properties t) with
      | None => None
      | Some p => prop_default p
      end
  end.

(** [try: body except Exception as e: handler(e)] for code that leaves the
    log alone. *)
Definition catch {A} (body : exn + A) (handler : exn -> exn + A) : exn + A :=
  match body with
  | inl e => handler e
  | inr a => inr a
  end.

Section Server.

(** [str(l)] for a list of strings [l], a built-in (it prints the [repr]
    of every item). *)
Variable str_list : list pystr -> pystr.

(** The mail server: what becomes of lines 58-71 of [send_email] for a
    message, given the messages handed over before it.  [None]: the
    message was transmitted; [Some m]: an exception was raised whose
    [str] is [m]. *)
Variable smtp : list email -> email -> option pystr.

(** [str(v)], as an f-string renders a value. *)
Definition py_str (v : value) : pystr :=
  match v with
  | VNone => lit "None"
  | VStr s => s
  | VList l => str_list l
  end.

(** [EmailOrchestrator.get_email_artifact] (source lines 41-52). *)
Definition get_email_artifact (self : EmailOrchestrator) (artifact_id : value)
  : exn + dict :=
  catch
    (match supabase self artifact_id with
     | DbFailure m => inl (LibraryError m)
     | DbRows data =>
         match data with
         | [] =>
             inl (ValueError (lit "Email artifact with ID " ++
                              py_str artifact_id ++ lit " not found"))
         | row :: _ => inr row
         end
     end)
    (fun e =>
       inl (ValueError (lit "Failed to retrieve email artifact: " ++ exn_str e))).

(** Lines 58-71 of [send_email]: the message goes to the mail server,
    which accepts it or raises. *)
Definition transmit (msg : email) : M unit :=
  fun log =>
    match smtp log msg with
    | Some m => (inl (LibraryError m), log ++ [msg])
    | None => (inr tt, log ++ [msg])
    end.

(** The dict of source lines 73-80, [n] being [len(html_content)]. *)
Definition send_result (to subject context : value) (n : nat) : SendResult :=
  {| res_success := true;
     res_message := lit "Email sent successfully";
     res_to := to;
     res_subject := subject;
     res_context := context;
     res_content_length := n |}.

(** The message of source lines 58-65. *)
Definition build_message (self : EmailOrchestrator)
    (to subject html_content : value) : email :=
  {| msg_subject := subject;
     msg_from := smtp_username self;
     msg_to := to;
     msg_html := html_content |}.

(** [EmailOrchestrator.send_email] (source lines 54-83). *)
Definition send_email (self : EmailOrchestrator)
    (to subject html_content context : value) : M SendResult :=
  try_except
    (let msg := build_message self to subject html_content in
     do _ <- transmit msg;
     do n <- lift (py_len html_content);
     ret (send_result to subject context n))
    (fun e => raise (ValueError (lit "Failed to send email: " ++ exn_str e))).

(** The message the loop of [send_email_from_artifact] sends to one
    recipient. *)
Definition message_to (self : EmailOrchestrator)
    (subject html_content to : value) : email :=
  build_message self to subject html_content.

(** The mail server accepts every message of [recipients], sent in turn
    on top of the log [log]. *)
Fixpoint all_accepted (self : EmailOrchestrator)
    (subject html_content : value)
    (log : list email) (recipients : list value) : bool :=
  match recipients with
  | [] => true
  | r :: rest =>
      let msg := message_to self subject html_content r in
      match smtp log msg with
      | None => all_accepted self subject html_content (log ++ [msg]) rest
      | Some _ => false
      end
  end.

(** The loop of source lines 198-200: [results] grows by one result per
    recipient, and the first send that raises ends the loop. *)
Fixpoint send_each (self : EmailOrchestrator)
    (subject html_content context : value)
    (recipients : list value) (results : list SendResult)
  : M (list SendResult) :=
  match recipients with
  | [] => ret results
  | recipient :: rest =>
      do result <- send_email self recipient subject html_content context;
      send_each self subject html_content context rest (results ++ [result])
  end.

(** [types.TextContent(type="text", text=t)]. *)
Definition text_content (t : pystr) : TextContent :=
  {| content_type := lit "text"; text := t |}.

(** The reply of [send_email_direct] (source lines 171-178). *)
Definition direct_reply (result : SendResult) : pystr :=
  check_mark ++ lit " Email sent successfully!" ++ nl ++
  lit "To: " ++ py_str (res_to result) ++ nl ++
  lit "Subject: " ++ py_str (res_subject result) ++ nl ++
  lit "Context: " ++ py_str (res_context result) ++ nl ++
  lit "Content length: " ++ str_nat (res_content_length result) ++
  lit " characters".

(** The reply for one recipient (source lines 205-213). *)
Definition single_reply (result : SendResult) (artifact_id : value)
    (artifact : dict) : pystr :=
  check_mark ++ lit " Email sent from artifact!" ++ nl ++
  lit "To: " ++ py_str (res_to result) ++ nl ++
  lit "Subject: " ++ py_str (res_subject result) ++ nl ++
  lit "Artifact ID: " ++ py_str artifact_id ++ nl ++
  lit "Artifact Title: " ++
    py_str (dict_get artifact (lit "title") (VStr (lit "Unknown"))) ++ nl ++
  lit "Content length: " ++ str_nat (res_content_length result) ++
  lit " characters".

(** The reply for several recipients (source lines 216-224). *)
Definition aggregate_reply (count : nat) (recipient_list : pystr)
    (first : SendResult) (artifact_id : value) (artifact : dict) : pystr :=
  check_mark ++ lit " Email sent from artifact to " ++ str_nat count ++
    lit " recipients!" ++ nl ++
  lit "To: " ++ recipient_list ++ nl ++
  lit "Subject: " ++ py_str (res_subject first) ++ nl ++
  lit "Artifact ID: " ++ py_str artifact_id ++ nl ++
  lit "Artifact Title: " ++
    py_str (dict_get artifact (lit "title") (VStr (lit "Unknown"))) ++ nl ++
  lit "Content length: " ++ str_nat (res_content_length first) ++
  lit " characters".

(** The [try] block of [call_tool] (source lines 163-227). *)
Definition call_tool_body (self : EmailOrchestrator) (name : pystr)
    (arguments : dict) : M (list TextContent) :=
  if decide (name = lit "send_email_direct") then
    do to <- lift (subscript arguments (lit "to"));
    do subject <- lift (subscript arguments (lit "subject"));
    do html_content <- lift (subscript arguments (lit "html_content"));
    let context := dict_get arguments (lit "context") (VStr (lit "Direct email")) in
    do result <- send_email self to subject html_content context;
    ret [text_content (direct_reply result)]
  else if decide (name = lit "send_email_from_artifact") then
    do to <- lift (subscript arguments (lit "to"));
    do artifact_id <- lift (subscript arguments (lit "artifact_id"));
    do artifact <- lift (get_email_artifact self artifact_id);
    let subject := dict_get artifact (lit "title") (VStr []) in
    let html_content := dict_get artifact (lit "html_template") (VStr []) in
    if negb (truthy subject) || negb (truthy html_content) then
      raise (ValueError
               (lit "Email artifact missing required fields: title or html_template"))
    else
      let recipients := recipients_of to in
      do results <-
        send_each self subject html_content
          (VStr (lit "Email from artifact " ++ py_str artifact_id))
          recipients [];
      if decide (length recipients = 1) then
        do result <- lift (first_item results);
        ret [text_content (single_reply result artifact_id artifact)]
      else
        do recipient_list <- lift (join_values (lit ", ") (res_to <$> results));
        do first <- lift (first_item results);
        ret [text_content
               (aggregate_reply (length recipients) recipient_list first
                  artifact_id artifact)]
  else
    raise (ValueError (lit "Unknown tool: " ++ name)).

(** The reply of the [except] clause (source lines 230-233). *)
Definition error_reply (e : exn) : TextContent :=
  text_content (cross_mark ++ lit " Error: " ++ exn_str e).

(** [call_tool] (source lines 157-233): the body, with every exception
    turned into an error reply. *)
Definition call_tool (self : EmailOrchestrator) (name : pystr)
    (arguments : dict) : M (list TextContent) :=
  try_except
    (call_tool_body self name arguments)
    (fun e => ret [error_reply e]).

End Server.

(** ** Sample collaborators

    Concrete environments on which the theorems below are instantiated. *)

(** [str(l)] for strings free of quotes, backslashes and control
    characters: the items between single quotes, in brackets. *)
Definition plain_str_list (l : list pystr) : pystr :=
  lit "[" ++ join (lit ", ") ((fun s => lit "'" ++ s ++ lit "'") <$> l) ++ lit "]".

(** A mail server that accepts every message. *)
Definition accept_all : list email -> email -> option pystr :=
  fun _ _ => None.

(** A mail server that refuses its [k]-th message (counted from 0) and
    accepts the others. *)
Definition refuse_nth (k : nat) (m : pystr) : list email -> email -> option pystr :=
  fun log _ => if decide (length log = k) then Some m else None.

Definition welcome : dict :=
  <[lit "title" := VStr (lit "Welcome")]>
    (<[lit "html_template" := VStr (lit "<p>hi</p>")]> ∅).

Definition untitled : dict :=
  <[lit "title" := VStr []]>
    (<[lit "html_template" := VStr (lit "<p>hi</p>")]> ∅).

(** A datastore with artifact 123 (complete), artifact 124 (empty title),
    an id on which the query fails, and nothing else. *)
Definition sample_store : Client :=
  fun id =>
    if decide (id = VStr (lit "123")) then DbRows [welcome]
    else if decide (id = VStr (lit "124")) then DbRows [untitled]
    else if decide (id = VStr (lit "down")) then DbFailure (lit "connection refused")
    else DbRows [].

Definition sample_orchestrator : EmailOrchestrator :=
  {| smtp_server := lit "smtp.gmail.com";
     smtp_port := 587;
     smtp_username := lit "sender@x.com";
     smtp_password := lit "secret";
     supabase_url := lit "https://db.example";
     supabase_key := lit "key";
     supabase := sample_store |}.

Definition alice : pystr := lit "a@x.com".

Definition bob : pystr := lit "b@x.com".

(** The arguments of [send_email_from_artifact]. *)
Definition artifact_args (to artifact_id : value) : dict :=
  <[lit "to" := to]> (<[lit "artifact_id" := artifact_id]> ∅).

(** The arguments of [send_email_direct], without a context. *)
Definition direct_args (to subject html_content : value) : dict :=
  <[lit "to" := to]>
    (<[lit "subject" := subject]> (<[lit "html_content" := html_content]> ∅)).

Fixpoint digits_value (acc : Z) (s : pystr) : option Z :=
  match s with
  | [] => Some acc
  | c :: rest =>
      if ((48 <=? c) && (c <=? 57))%N
      then digits_value (10 * acc + Z.of_N (c - 48)) rest
      else None
  end.

(** [int(s)] on the strings made of ASCII digits, and the [ValueError] of
    [int] on the others (signs, spaces and underscores are left out of the
    sample). *)
Definition decimal_int (s : pystr) : exn + Z :=
  match s, digits_value 0 s with
  | _ :: _, Some z => inr z
  | _, _ =>
      inl (ValueError
             (lit "invalid literal for int() with base 10: '" ++ s ++ lit "'"))
  end.

(** A datastore library that hands out the sample store. *)
Definition sample_create_client : pystr -> pystr -> exn + Client :=
  fun _ _ => inr sample_store.

(** An environment with the four required variables and nothing else. *)
Definition sample_env : gmap pystr pystr :=
  <[lit "SMTP_USERNAME" := lit "sender@x.com"]>
    (<[lit "SMTP_PASSWORD" := lit "secret"]>
       (<[lit "SUPABASE_URL" := lit "https://db.example"]>
          (<[lit "SUPABASE_KEY" := lit "key"]> ∅))).

Definition carol : pystr := lit "c@x.com".


(** The orchestrator [self] with another datastore client. *)
Definition with_supabase (self : EmailOrchestrator) (client : Client)
  : EmailOrchestrator :=
  {| smtp_server := smtp_server self;
     smtp_port := smtp_port self;
     smtp_username := smtp_username self;
     smtp_password := smtp_password self;
     supabase_url := supabase_url self;
     supabase_key := supabase_key self;
     supabase := client |}.

Arguments lit : simpl never.
Opaque lit.

(** * Facts about the embedding *)

(** ** Strings and values *)

Lemma artifact_is_not_direct :
  lit "send_email_from_artifact" <> lit "send_email_direct".
Proof. intros E. vm_compute in E. discriminate E. Qed.

Lemma artifact_id_is_not_to : lit "to" <> lit "artifact_id".
Proof. intros E. vm_compute in E. discriminate E. Qed.

Lemma truthy_has_len (v : value) :
  truthy v = true -> py_len v = inr (match v with
                                     | VStr s => length s
                                     | VList l => length l
                                     | VNone => 0
                                     end).
Proof. destruct v; simpl; [discriminate | reflexivity | reflexivity]. Qed.

Lemma recipients_of_str (a : pystr) : recipients_of (VStr a) = [VStr a].
Proof. reflexivity. Qed.

Lemma recipients_of_singleton (a : pystr) : recipients_of (VList [a]) = [VStr a].
Proof. reflexivity. Qed.

Lemma str_items_strings (i : nat) (l : list pystr) :
  str_items i (VStr <$> l) = inr l.
Proof.
  revert i. induction l as [|s l IH]; intros i; simpl; [reflexivity|].
  now rewrite IH.
Qed.

Lemma join_values_strings (sep : pystr) (l : list pystr) :
  join_values sep (VStr <$> l) = inr (join sep l).
Proof. unfold join_values. now rewrite str_items_strings. Qed.

Lemma first_item_fmap_cons {A B} (f : A -> B) (a : A) (l : list A) :
  first_item (f <$> a :: l) = inr (f a).
Proof. reflexivity. Qed.

Lemma truthy_len_of (v : value) :
  truthy v = true -> py_len v = inr (len_of v).
Proof. unfold len_of. now destruct v. Qed.

Lemma res_to_send_result (subject context : value) (n : nat) (l : list value) :
  res_to <$> ((fun r => send_result r subject context n) <$> l) = l.
Proof. induction l as [|r l IH]; [reflexivity | csimpl; now f_equal]. Qed.

(** ** Running [send_email] and the loop over the recipients *)

Section SendFacts.

Variable smtp : list email -> email -> option pystr.
Variable self : EmailOrchestrator.
Variables subject html_content context : value.

Local Abbreviation message := (message_to self subject html_content).
Local Abbreviation accepted := (all_accepted smtp self subject html_content).
Local Abbreviation send_all :=
  (send_each smtp self subject html_content context).

(** The three ways one call of [send_email] can go; the message is in the
    log in each. *)
Lemma send_email_run (to : value) (log : list email) :
  send_email smtp self to subject html_content context log =
    match smtp log (message to) with
    | Some m =>
        (inl (ValueError (lit "Failed to send email: " ++ m)),
         log ++ [message to])
    | None =>
        match py_len html_content with
        | inl e =>
            (inl (ValueError (lit "Failed to send email: " ++ exn_str e)),
             log ++ [message to])
        | inr n =>
            (inr (send_result to subject context n), log ++ [message to])
        end
    end.
Proof.
  unfold send_email, try_except, bind, transmit, message_to. simpl.
  destruct (smtp log _); [reflexivity|].
  destruct (py_len html_content); reflexivity.
Qed.

Lemma send_each_accepted (n : nat) (recipients : list value) :
  py_len html_content = inr n ->
  forall results log,
    accepted log recipients = true ->
    send_all recipients results log =
      (inr (results ++ ((fun r => send_result r subject context n) <$> recipients)),
       log ++ (message <$> recipients)).
Proof.
  intros Hlen. induction recipients as [|r rest IH]; intros results log Hacc.
  - simpl. unfold ret. now rewrite !app_nil_r.
  - simpl in Hacc. simpl. unfold bind. rewrite send_email_run.
    destruct (smtp log (message r)); [discriminate Hacc|].
    rewrite Hlen, (IH _ _ Hacc). now rewrite <- !app_assoc.
Qed.

Lemma send_each_rejected (n : nat) (m : pystr) (before : list value)
    (r : value) (after : list value) :
  py_len html_content = inr n ->
  forall results log,
    accepted log before = true ->
    smtp (log ++ (message <$> before)) (message r) = Some m ->
    send_all (before ++ r :: after) results log =
      (inl (ValueError (lit "Failed to send email: " ++ m)),
       log ++ (message <$> before) ++ [message r]).
Proof.
  intros Hlen. induction before as [|b before IH]; intros results log Hacc Hrej.
  - simpl in *. rewrite app_nil_r in Hrej.
    unfold bind. rewrite send_email_run. now rewrite Hrej.
  - simpl in Hacc. simpl. unfold bind. rewrite send_email_run.
    destruct (smtp log (message b)); [discriminate Hacc|].
    rewrite Hlen.
    rewrite (IH (results ++ [send_result b subject context n])
               (log ++ [message b]) Hacc).
    + now rewrite <- !app_assoc.
    + rewrite <- app_assoc. exact Hrej.
Qed.

(** A loop that ran to its end sent one message per recipient. *)
Lemma send_each_returned (recipients : list value) :
  forall results log rs log',
    send_all recipients results log = (inr rs, log') ->
    rs = results ++
           ((fun r => send_result r subject context (len_of html_content))
              <$> recipients)
    /\ log' = log ++ (message <$> recipients)
    /\ (recipients <> [] -> py_len html_content = inr (len_of html_content)).
Proof.
  induction recipients as [|r rest IH]; intros results log rs log' Hrun.
  - simpl in Hrun. unfold ret in Hrun. inversion Hrun; subst.
    rewrite !app_nil_r. now split.
  - simpl in Hrun. unfold bind in Hrun. rewrite send_email_run in Hrun.
    destruct (smtp log (message r)); [discriminate Hrun|].
    destruct (py_len html_content) as [e|n] eqn:Hlen; [discriminate Hrun|].
    apply IH in Hrun as (-> & -> & _).
    assert (len_of html_content = n) as -> by (unfold len_of; now rewrite Hlen).
    simpl. rewrite <- !app_assoc. now split.
Qed.

End SendFacts.

(** ** The dispatcher *)

(** Membership in a list that is written out. *)
Ltac in_list := rewrite ?elem_of_cons; auto 10.

Lemma missing_get (d : dict) (k : pystr) :
  missing d k = negb (truthy (dict_get d k (VStr []))).
Proof. unfold missing, dict_get. now destruct (d !! k). Qed.

Section DispatchFacts.

Variable str_list : list pystr -> pystr.
Variable smtp : list email -> email -> option pystr.
Variable self : EmailOrchestrator.

Local Abbreviation body := (call_tool_body str_list smtp self).
Local Abbreviation call := (call_tool str_list smtp self).
Local Abbreviation fetch := (get_email_artifact str_list self).

Lemma call_tool_raised name args log e log' :
  body name args log = (inl e, log') ->
  call name args log = (inr [error_reply e], log').
Proof. intros H. unfold call_tool, try_except. now rewrite H. Qed.

Lemma call_tool_returned name args log r log' :
  body name args log = (inr r, log') ->
  call name args log = (inr r, log').
Proof. intros H. unfold call_tool, try_except. now rewrite H. Qed.

Lemma body_unknown name args log :
  name <> lit "send_email_direct" ->
  name <> lit "send_email_from_artifact" ->
  body name args log = (inl (ValueError (lit "Unknown tool: " ++ name)), log).
Proof.
  intros H1 H2. unfold call_tool_body.
  destruct (decide (name = lit "send_email_direct")); [contradiction|].
  destruct (decide (name = lit "send_email_from_artifact")); [contradiction|].
  reflexivity.
Qed.

(** [send_email_direct] with its three required arguments. *)
Lemma body_direct args log to subject html_content :
  args !! lit "to" = Some to ->
  args !! lit "subject" = Some subject ->
  args !! lit "html_content" = Some html_content ->
  body (lit "send_email_direct") args log =
    bind
      (send_email smtp self to subject html_content
         (dict_get args (lit "context") (VStr (lit "Direct email"))))
      (fun result => ret [text_content (direct_reply str_list result)])
      log.
Proof.
  intros Hto Hsub Hhtml. unfold call_tool_body.
  destruct (decide (_ = _)) as [_|N]; [|contradiction].
  unfold subscript. rewrite Hto, Hsub, Hhtml. reflexivity.
Qed.

(** A body that returned had its required arguments. *)
Lemma body_direct_returned args log r log' :
  body (lit "send_email_direct") args log = (inr r, log') ->
  exists to subject html_content,
    args !! lit "to" = Some to
    /\ args !! lit "subject" = Some subject
    /\ args !! lit "html_content" = Some html_content.
Proof.
  unfold call_tool_body.
  destruct (decide (_ = _)) as [_|N]; [|contradiction].
  unfold subscript, bind, lift, raise, ret.
  destruct (args !! lit "to") as [to|]; [|discriminate].
  destruct (args !! lit "subject") as [subject|]; [|discriminate].
  destruct (args !! lit "html_content") as [html|]; [|discriminate].
  intros _. now exists to, subject, html.
Qed.

Lemma body_artifact_returned args log r log' :
  body (lit "send_email_from_artifact") args log = (inr r, log') ->
  exists to artifact_id artifact,
    args !! lit "to" = Some to
    /\ args !! lit "artifact_id" = Some artifact_id
    /\ fetch artifact_id = inr artifact.
Proof.
  unfold call_tool_body.
  destruct (decide (_ = lit "send_email_direct")) as [E|_];
    [now apply artifact_is_not_direct in E|].
  destruct (decide (_ = _)) as [_|N]; [|contradiction].
  unfold subscript, bind, lift, raise, ret.
  destruct (args !! lit "to") as [to|]; [|discriminate].
  destruct (args !! lit "artifact_id") as [artifact_id|]; [|discriminate].
  destruct (fetch artifact_id) as [e|artifact] eqn:Hfetch; [discriminate|].
  intros _. now exists to, artifact_id, artifact.
Qed.

(** [send_email_from_artifact] up to the loop: the arguments are there,
    the artifact is fetched and has its two fields. *)
Lemma body_artifact args log to artifact_id artifact :
  args !! lit "to" = Some to ->
  args !! lit "artifact_id" = Some artifact_id ->
  fetch artifact_id = inr artifact ->
  body (lit "send_email_from_artifact") args log =
    let subject := dict_get artifact (lit "title") (VStr []) in
    let html_content := dict_get artifact (lit "html_template") (VStr []) in
    if missing artifact (lit "title") || missing artifact (lit "html_template") then
      (inl (ValueError
              (lit "Email artifact missing required fields: title or html_template")),
       log)
    else
      bind
        (send_each smtp self subject html_content
           (VStr (lit "Email from artifact " ++ py_str str_list artifact_id))
           (recipients_of to) [])
        (fun results =>
           if decide (length (recipients_of to) = 1) then
             do result <- lift (first_item results);
             ret [text_content (single_reply str_list result artifact_id artifact)]
           else
             do recipient_list <- lift (join_values (lit ", ") (res_to <$> results));
             do first <- lift (first_item results);
             ret [text_content
                    (aggregate_reply str_list (length (recipients_of to))
                       recipient_list first artifact_id artifact)])
        log.
Proof.
  intros Hto Hid Hfetch. unfold call_tool_body.
  destruct (decide (_ = lit "send_email_direct")) as [E|_];
    [now apply artifact_is_not_direct in E|].
  destruct (decide (_ = _)) as [_|N]; [|contradiction].
  unfold subscript. rewrite Hto, Hid.
  cbv beta iota delta [bind lift ret raise]. rewrite Hfetch.
  rewrite !missing_get. cbv zeta.
  destruct (negb _ || negb _); reflexivity.
Qed.

(** A body that returned, returned one item. *)
Lemma body_returns_one name args log r log' :
  body name args log = (inr r, log') -> exists t, r = [t].
Proof.
  unfold call_tool_body, bind, lift, raise, ret.
  destruct (decide (name = lit "send_email_direct")).
  - destruct (subscript args (lit "to")); [discriminate|].
    destruct (subscript args (lit "subject")); [discriminate|].
    destruct (subscript args (lit "html_content")); [discriminate|].
    destruct (send_email _ _ _ _ _ _ _) as [[?|?] ?]; [discriminate|].
    intros [= <- _]. eauto.
  - destruct (decide (name = lit "send_email_from_artifact")); [|discriminate].
    destruct (subscript args (lit "to")); [discriminate|].
    destruct (subscript args (lit "artifact_id")); [discriminate|].
    destruct (get_email_artifact _ _ _); [discriminate|].
    destruct (negb _ || negb _); [discriminate|].
    destruct (send_each _ _ _ _ _ _ _ _) as [[?|?] ?]; [discriminate|].
    destruct (decide _).
    + destruct (first_item _); [discriminate|]. intros [= <- _]. eauto.
    + destruct (join_values _ _); [discriminate|].
      destruct (first_item _); [discriminate|]. intros [= <- _]. eauto.
Qed.

(** A required argument that is missing ends the body in the [KeyError]
    of the first missing one, before anything else is done. *)
Lemma body_missing_argument name args log tool :
  tool ∈ list_tools ->
  tool_name tool = name ->
  (exists key, key ∈ tool_required tool /\ args !! key = None) ->
  exists key,
    key ∈ tool_required tool /\ args !! key = None
    /\ body name args log = (inl (KeyError key), log).
Proof.
  intros Hin <- (key & Hkey & Hnone).
  unfold list_tools in Hin.
  apply elem_of_cons in Hin as [-> | Hin];
    [|apply list_elem_of_singleton in Hin as ->];
    cbn [tool_name tool_required] in *;
    unfold call_tool_body, bind, lift, raise, ret, subscript.
  - destruct (decide (_ = _)) as [_|N]; [|contradiction].
    destruct (args !! lit "to") eqn:Hto;
      [|exists (lit "to"); split; [in_list | now split]].
    destruct (args !! lit "subject") eqn:Hsub;
      [|exists (lit "subject"); split; [in_list | now split]].
    destruct (args !! lit "html_content") eqn:Hhtml;
      [|exists (lit "html_content"); split; [in_list | now split]].
    exfalso.
    repeat (apply elem_of_cons in Hkey as [-> | Hkey]; [congruence|]).
    now apply elem_of_nil in Hkey.
  - destruct (decide (_ = lit "send_email_direct")) as [E|_];
      [now apply artifact_is_not_direct in E|].
    destruct (decide (_ = _)) as [_|N]; [|contradiction].
    destruct (args !! lit "to") eqn:Hto;
      [|exists (lit "to"); split; [in_list | now split]].
    destruct (args !! lit "artifact_id") eqn:Hid;
      [|exists (lit "artifact_id"); split; [in_list | now split]].
    exfalso.
    repeat (apply elem_of_cons in Hkey as [-> | Hkey]; [congruence|]).
    now apply elem_of_nil in Hkey.
Qed.

(** The same, for an artifact whose two fields are there. *)
Lemma body_artifact_valid args log to artifact_id artifact title template :
  args !! lit "to" = Some to ->
  args !! lit "artifact_id" = Some artifact_id ->
  fetch artifact_id = inr artifact ->
  artifact !! lit "title" = Some title -> truthy title = true ->
  artifact !! lit "html_template" = Some template -> truthy template = true ->
  body (lit "send_email_from_artifact") args log =
    bind
      (send_each smtp self title template
         (VStr (lit "Email from artifact " ++ py_str str_list artifact_id))
         (recipients_of to) [])
      (fun results =>
         if decide (length (recipients_of to) = 1) then
           do result <- lift (first_item results);
           ret [text_content (single_reply str_list result artifact_id artifact)]
         else
           do recipient_list <- lift (join_values (lit ", ") (res_to <$> results));
           do first <- lift (first_item results);
           ret [text_content
                  (aggregate_reply str_list (length (recipients_of to))
                     recipient_list first artifact_id artifact)])
      log.
Proof.
  intros Hto Hid Hfetch Ht Htt Hh Hht.
  rewrite (body_artifact _ _ _ _ _ Hto Hid Hfetch).
  unfold missing, dict_get. rewrite Ht, Hh, Htt, Hht. reflexivity.
Qed.

End DispatchFacts.

(** * The claims *)

Section ArtifactTool.

Variable str_list : list pystr -> pystr.
Variable smtp : list email -> email -> option pystr.
Variable self : EmailOrchestrator.

Local Abbreviation call := (call_tool str_list smtp self).
Local Abbreviation fetch := (get_email_artifact str_list self).

(** C1. A call of [send_email_from_artifact] whose fetched artifact has
    an empty or absent [title] or [html_template] ends in the error reply
    "Email artifact missing required fields: title or html_template", and
    the log of the mail server is what it was: no send was attempted. *)
Theorem missing_fields_fail_before_any_send
    (args : dict) (log : list email) (to artifact_id : value) (artifact : dict) :
  args !! lit "to" = Some to ->
  args !! lit "artifact_id" = Some artifact_id ->
  fetch artifact_id = inr artifact ->
  missing artifact (lit "title") = true \/
    missing artifact (lit "html_template") = true ->
  call (lit "send_email_from_artifact") args log =
    (inr [text_content
            (cross_mark ++ lit " Error: " ++
             lit "Email artifact missing required fields: title or html_template")],
     log).
Proof.
  intros Hto Hid Hfetch Hmiss.
  apply (call_tool_raised _ _ _ _ _ _ (ValueError _)).
  rewrite (body_artifact _ _ _ _ _ _ _ _ Hto Hid Hfetch). cbv zeta.
  destruct Hmiss as [-> | ->]; [reflexivity|].
  now rewrite orb_true_r.
Qed.

(** C10. With [to] an empty list and a fetched artifact that has its two
    fields, nothing is sent and the reply is an error reply: formatting
    the aggregate reply indexes the empty list of results. *)
Theorem empty_recipient_list_is_an_error
    (args : dict) (log : list email) (artifact_id : value) (artifact : dict)
    (title template : value) :
  args !! lit "to" = Some (VList []) ->
  args !! lit "artifact_id" = Some artifact_id ->
  fetch artifact_id = inr artifact ->
  artifact !! lit "title" = Some title -> truthy title = true ->
  artifact !! lit "html_template" = Some template -> truthy template = true ->
  call (lit "send_email_from_artifact") args log =
    (inr [text_content
            (cross_mark ++ lit " Error: " ++ lit "list index out of range")],
     log).
Proof.
  intros Hto Hid Hfetch Ht Htt Hh Hht.
  apply (call_tool_raised _ _ _ _ _ _ (IndexError _)).
  rewrite (body_artifact_valid _ _ _ _ _ _ _ _ _ _ Hto Hid Hfetch Ht Htt Hh Hht).
  reflexivity.
Qed.

(** C6. [send_email_from_artifact] with [to] a string [a] and with [to]
    the one-element list of [a] run alike: the same messages reach the
    mail server and the reply is the same, whatever the other arguments,
    the datastore and the mail server are. *)
Theorem single_address_is_one_element_list
    (a : pystr) (args : dict) (log : list email) :
  call (lit "send_email_from_artifact") (<[lit "to" := VStr a]> args) log =
  call (lit "send_email_from_artifact") (<[lit "to" := VList [a]]> args) log.
Proof.
  unfold call_tool, call_tool_body, try_except.
  destruct (decide (_ = lit "send_email_direct")) as [E|_];
    [now apply artifact_is_not_direct in E|].
  destruct (decide (_ = _)) as [_|N]; [|contradiction].
  unfold subscript.
  rewrite !lookup_insert_eq, !(lookup_insert_ne _ _ _ _ artifact_id_is_not_to).
  reflexivity.
Qed.

(** C2. With N >= 1 recipients, the first N-1 of which the mail server
    accepts and the N-th of which it refuses with message [m]: the N
    messages reach the mail server in the order of the list, and the call
    returns one reply, the error reply for that failure. *)
Theorem last_send_failure_is_one_error_reply
    (args : dict) (log : list email) (to artifact_id : value)
    (artifact : dict) (title template : value)
    (before : list value) (last : value) (m : pystr) :
  args !! lit "to" = Some to ->
  args !! lit "artifact_id" = Some artifact_id ->
  fetch artifact_id = inr artifact ->
  artifact !! lit "title" = Some title -> truthy title = true ->
  artifact !! lit "html_template" = Some template -> truthy template = true ->
  recipients_of to = before ++ [last] ->
  all_accepted smtp self title template log before = true ->
  smtp (log ++ (message_to self title template <$> before))
       (message_to self title template last) = Some m ->
  call (lit "send_email_from_artifact") args log =
    (inr [text_content
            (cross_mark ++ lit " Error: " ++ lit "Failed to send email: " ++ m)],
     log ++ (message_to self title template <$> before)
         ++ [message_to self title template last]).
Proof.
  intros Hto Hid Hfetch Ht Htt Hh Hht Hrec Hacc Hrej.
  apply (call_tool_raised _ _ _ _ _ _ (ValueError _)).
  rewrite (body_artifact_valid _ _ _ _ _ _ _ _ _ _ Hto Hid Hfetch Ht Htt Hh Hht).
  unfold bind at 1. rewrite Hrec.
  rewrite (send_each_rejected _ _ _ _ _ _ _ _ _ _ (truthy_len_of _ Hht) _ _ Hacc Hrej).
  reflexivity.
Qed.

(** C8. When the mail server accepts every message of the call: for one
    recipient the reply is the single-recipient confirmation (recipient,
    subject, artifact id, artifact title, content length); for a list of
    more than one it is the aggregate confirmation (count, the addresses
    joined by ", " in the order sent, subject, artifact id, artifact
    title, content length of the one body). *)
Theorem all_sent_confirmation
    (args : dict) (log : list email) (to artifact_id : value)
    (artifact : dict) (title template : value) :
  args !! lit "to" = Some to ->
  args !! lit "artifact_id" = Some artifact_id ->
  fetch artifact_id = inr artifact ->
  artifact !! lit "title" = Some title -> truthy title = true ->
  artifact !! lit "html_template" = Some template -> truthy template = true ->
  all_accepted smtp self title template log (recipients_of to) = true ->
  exists reply,
    call (lit "send_email_from_artifact") args log =
      (inr [text_content reply],
       log ++ (message_to self title template <$> recipients_of to))
    /\ (forall r, recipients_of to = [r] ->
          reply =
            check_mark ++ lit " Email sent from artifact!" ++ nl ++
            lit "To: " ++ py_str str_list r ++ nl ++
            lit "Subject: " ++ py_str str_list title ++ nl ++
            lit "Artifact ID: " ++ py_str str_list artifact_id ++ nl ++
            lit "Artifact Title: " ++ py_str str_list title ++ nl ++
            lit "Content length: " ++ str_nat (len_of template) ++
            lit " characters")
    /\ (forall addresses, to = VList addresses -> 1 < length addresses ->
          reply =
            check_mark ++ lit " Email sent from artifact to " ++
              str_nat (length addresses) ++ lit " recipients!" ++ nl ++
            lit "To: " ++ join (lit ", ") addresses ++ nl ++
            lit "Subject: " ++ py_str str_list title ++ nl ++
            lit "Artifact ID: " ++ py_str str_list artifact_id ++ nl ++
            lit "Artifact Title: " ++ py_str str_list title ++ nl ++
            lit "Content length: " ++ str_nat (len_of template) ++
            lit " characters").
Proof.
  intros Hto Hid Hfetch Ht Htt Hh Hht Hacc.
  assert (Htitle : dict_get artifact (lit "title") (VStr (lit "Unknown")) = title)
    by (unfold dict_get; now rewrite Ht).
  pose proof (body_artifact_valid str_list smtp self _ log _ _ _ _ _
                Hto Hid Hfetch Ht Htt Hh Hht) as Hbody.
  unfold bind at 1 in Hbody.
  rewrite (send_each_accepted _ _ _ _ _ _ _ (truthy_len_of _ Hht) _ _ Hacc)
    in Hbody.
  rewrite app_nil_l in Hbody.
  destruct (decide (length (recipients_of to) = 1)) as [Hone|Hmany].
  - destruct (recipients_of to) as [|r [|]] eqn:Hrec; try discriminate Hone.
    eexists. split; [|split].
    + apply call_tool_returned. rewrite Hbody. reflexivity.
    + intros r' [= <-]. unfold single_reply. now rewrite Htitle.
    + intros l -> Hl. destruct l as [|? [|]]; simpl in Hl; try lia.
      discriminate Hrec.
  - destruct to as [|a|l]; try (now contradiction Hmany).
    change (recipients_of (VList l)) with (VStr <$> l) in *.
    rewrite res_to_send_result, join_values_strings in Hbody.
    destruct l as [|a l].
    + exists (cross_mark ++ lit " Error: " ++ lit "list index out of range").
      split; [|split].
      * apply (call_tool_raised _ _ _ _ _ _
                 (IndexError (lit "list index out of range"))).
        rewrite Hbody. reflexivity.
      * intros r [=].
      * intros l [= <-] Hl. simpl in Hl. lia.
    + eexists. split; [|split].
      * apply call_tool_returned. rewrite Hbody. reflexivity.
      * intros r [= <- Hnil]. destruct l; [|discriminate Hnil].
        now contradiction Hmany.
      * intros l' [= <-] Hl. unfold aggregate_reply.
        rewrite Htitle, length_fmap. reflexivity.
Qed.

End ArtifactTool.

Section BothTools.

Variable str_list : list pystr -> pystr.
Variable smtp : list email -> email -> option pystr.
Variable self : EmailOrchestrator.

Local Abbreviation body := (call_tool_body str_list smtp self).
Local Abbreviation call := (call_tool str_list smtp self).

(** C7. A call of either tool that ends in a success reply handed at
    least one message to the mail server, every message of the call
    carries the same HTML body, and the reply ends in
    "Content length: n characters", n being [len] of that body: for a
    string body, its number of characters. *)
Theorem reported_length_is_transmitted_length
    (name : pystr) (args : dict) (log : list email)
    (replies : list TextContent) (log' : list email) :
  body name args log = (inr replies, log') ->
  exists (html : value) (preamble : pystr) (sent : list email),
    call name args log = (inr replies, log ++ sent)
    /\ sent <> []
    /\ Forall (fun msg => msg_html msg = html) sent
    /\ py_len html = inr (len_of html)
    /\ (forall h, html = VStr h -> len_of html = length h)
    /\ replies =
         [text_content
            (preamble ++ lit "Content length: " ++ str_nat (len_of html) ++
             lit " characters")].
Proof.
  intros Hrun.
  destruct (decide (name = lit "send_email_direct")) as [->|Hnd].
  - destruct (body_direct_returned _ _ _ _ _ _ _ Hrun)
      as (to & subject & html & Hto & Hsub & Hhtml).
    pose proof Hrun as Hcall. apply call_tool_returned in Hcall.
    rewrite (body_direct _ _ _ _ _ _ _ _ Hto Hsub Hhtml) in Hrun.
    unfold bind in Hrun. rewrite send_email_run in Hrun.
    destruct (smtp log _); [discriminate Hrun|].
    destruct (py_len html) as [e|n] eqn:Hlen; [discriminate Hrun|].
    assert (Hn : len_of html = n) by (unfold len_of; now rewrite Hlen).
    unfold ret in Hrun. injection Hrun as <- <-.
    exists html.
    exists (check_mark ++ lit " Email sent successfully!" ++ nl ++
            lit "To: " ++ py_str str_list to ++ nl ++
            lit "Subject: " ++ py_str str_list subject ++ nl ++
            lit "Context: " ++
              py_str str_list
                (dict_get args (lit "context") (VStr (lit "Direct email"))) ++
            nl).
    exists [message_to self subject html to].
    rewrite Hn. repeat split.
    + exact Hcall.
    + discriminate.
    + now constructor.
    + exact Hlen.
    + intros h ->. now injection Hlen.
    + unfold direct_reply, send_result; cbn [res_to res_subject res_context
        res_content_length]. now rewrite <- ?app_assoc.
  - destruct (decide (name = lit "send_email_from_artifact")) as [->|Hna];
      [|rewrite (body_unknown _ _ _ _ _ _ Hnd Hna) in Hrun; discriminate Hrun].
    destruct (body_artifact_returned _ _ _ _ _ _ _ Hrun)
      as (to & artifact_id & artifact & Hto & Hid & Hfetch).
    pose proof Hrun as Hcall. apply call_tool_returned in Hcall.
    rewrite (body_artifact _ _ _ _ _ _ _ _ Hto Hid Hfetch) in Hrun.
    cbv zeta in Hrun.
    destruct (missing _ _ || missing _ _); [discriminate Hrun|].
    unfold bind at 1 in Hrun.
    set (subject := dict_get artifact (lit "title") (VStr [])) in *.
    set (html := dict_get artifact (lit "html_template") (VStr [])) in *.
    destruct (send_each _ _ _ _ _ _ _ _) as [[e|results] log1] eqn:Hloop;
      [discriminate Hrun|].
    apply send_each_returned in Hloop as (-> & -> & Hlen).
    rewrite app_nil_l in Hrun.
    assert (Hne : recipients_of to <> []).
    { intros Hnil. rewrite Hnil in Hrun. discriminate Hrun. }
    destruct (recipients_of to) as [|r rest] eqn:Hrec; [now contradiction Hne|].
    assert (Hsent : log' = log ++ (message_to self subject html <$> r :: rest)).
    { destruct (decide (length (r :: rest) = 1)).
      - rewrite first_item_fmap_cons in Hrun. now injection Hrun.
      - unfold bind at 1 in Hrun.
        destruct (join_values _ _); [discriminate Hrun|].
        rewrite first_item_fmap_cons in Hrun. now injection Hrun. }
    assert (Hall : Forall (fun msg => msg_html msg = html)
                     (message_to self subject html <$> r :: rest))
      by (apply Forall_fmap, Forall_forall; now intros).
    assert (Hchars : forall h, html = VStr h -> len_of html = length h)
      by (intros h Hh; unfold len_of; now rewrite Hh).
    exists html.
    destruct (decide (length (r :: rest) = 1)).
    + rewrite first_item_fmap_cons in Hrun.
      unfold bind, lift, ret in Hrun. injection Hrun as <- _.
      exists
        (check_mark ++ lit " Email sent from artifact!" ++ nl ++
         lit "To: " ++ py_str str_list r ++ nl ++
         lit "Subject: " ++ py_str str_list subject ++ nl ++
         lit "Artifact ID: " ++ py_str str_list artifact_id ++ nl ++
         lit "Artifact Title: " ++
           py_str str_list
             (dict_get artifact (lit "title") (VStr (lit "Unknown"))) ++ nl).
      exists (message_to self subject html <$> r :: rest).
      rewrite <- Hsent.
      refine (conj Hcall (conj _ (conj Hall (conj (Hlen Hne) (conj Hchars _))))).
      * discriminate.
      * unfold single_reply, send_result; cbn [res_to res_subject res_context
          res_content_length]. now rewrite <- ?app_assoc.
    + unfold bind at 1 in Hrun.
      destruct (join_values _ _) as [e|recipient_list]; [discriminate Hrun|].
      rewrite first_item_fmap_cons in Hrun.
      unfold bind, lift, ret in Hrun. injection Hrun as <- _.
      exists
        (check_mark ++ lit " Email sent from artifact to " ++
           str_nat (length (r :: rest)) ++ lit " recipients!" ++ nl ++
         lit "To: " ++ recipient_list ++ nl ++
         lit "Subject: " ++ py_str str_list subject ++ nl ++
         lit "Artifact ID: " ++ py_str str_list artifact_id ++ nl ++
         lit "Artifact Title: " ++
           py_str str_list
             (dict_get artifact (lit "title") (VStr (lit "Unknown"))) ++ nl).
      exists (message_to self subject html <$> r :: rest).
      rewrite <- Hsent.
      refine (conj Hcall (conj _ (conj Hall (conj (Hlen Hne) (conj Hchars _))))).
      * discriminate.
      * unfold aggregate_reply, send_result; cbn [res_to res_subject
          res_context res_content_length]. now rewrite <- ?app_assoc.
Qed.

(** C3. Whatever the tool name and the arguments, the dispatcher returns
    one text reply and raises nothing.  An exception raised in the body
    becomes the reply made of the failure mark, " Error: " and the
    exception's message; so does an unknown tool name ("Unknown tool:"
    and the name) and a missing required argument (the [KeyError] of the
    first missing one), each before anything is sent. *)
Theorem every_call_gets_one_reply
    (name : pystr) (args : dict) (log : list email) :
  exists (reply : TextContent) (log' : list email),
    call name args log = (inr [reply], log')
    /\ (forall e l, body name args log = (inl e, l) ->
          reply = text_content (cross_mark ++ lit " Error: " ++ exn_str e)
          /\ log' = l)
    /\ (name <> lit "send_email_direct" ->
        name <> lit "send_email_from_artifact" ->
        reply = text_content
                  (cross_mark ++ lit " Error: " ++ lit "Unknown tool: " ++ name)
        /\ log' = log)
    /\ (forall tool, tool ∈ list_tools -> tool_name tool = name ->
        (exists key, key ∈ tool_required tool /\ args !! key = None) ->
        exists key,
          key ∈ tool_required tool /\ args !! key = None
          /\ reply = text_content
                       (cross_mark ++ lit " Error: " ++ lit "'" ++ key ++ lit "'")
          /\ log' = log).
Proof.
  destruct (body name args log) as [[e|r] l] eqn:Hrun.
  - exists (error_reply e), l. split; [now apply call_tool_raised|].
    split; [|split].
    + now intros e' l' [= <- <-].
    + intros Hnd Hna. rewrite (body_unknown _ _ _ _ _ _ Hnd Hna) in Hrun.
      now injection Hrun as <- <-.
    + intros tool Hin Hname Hmiss.
      destruct (body_missing_argument str_list smtp self _ _ log _ Hin Hname Hmiss)
        as (key & Hkey & Hnone & Hraise).
      rewrite Hraise in Hrun. injection Hrun as <- <-.
      now exists key.
  - destruct (body_returns_one _ _ _ _ _ _ _ _ Hrun) as [t ->].
    exists t, l. split; [now apply call_tool_returned|].
    split; [|split].
    + intros e' l' [=].
    + intros Hnd Hna. rewrite (body_unknown _ _ _ _ _ _ Hnd Hna) in Hrun.
      discriminate Hrun.
    + intros tool Hin Hname Hmiss.
      destruct (body_missing_argument str_list smtp self _ _ log _ Hin Hname Hmiss)
        as (key & _ & _ & Hraise).
      rewrite Hraise in Hrun. discriminate Hrun.
Qed.

End BothTools.

(** ** Fetching the artifact *)

(** C4, as the code has it.  [get_email_artifact] returns the first row of
    the query.  Its two failures are both a [ValueError] whose message
    starts with "Failed to retrieve email artifact: ": a failed query adds
    the message of the underlying failure, and a query without rows adds
    "Email artifact with ID <id> not found"; the not-found error is raised
    inside the [try] block and so is wrapped like any other. *)
Theorem fetch_outcomes
    (str_list : list pystr -> pystr) (self : EmailOrchestrator) (artifact_id : value) :
  get_email_artifact str_list self artifact_id =
    match supabase self artifact_id with
    | DbRows (row :: _) => inr row
    | DbRows [] =>
        inl (ValueError
               (lit "Failed to retrieve email artifact: " ++
                lit "Email artifact with ID " ++ py_str str_list artifact_id ++
                lit " not found"))
    | DbFailure m =>
        inl (ValueError (lit "Failed to retrieve email artifact: " ++ m))
    end.
Proof.
  unfold get_email_artifact, catch.
  destruct (supabase self artifact_id) as [[|row rows]|m]; reflexivity.
Qed.

(** C4 fails as stated: the sample store has no row for id 999, and the
    error is the retrieval failure around the not-found message, not the
    not-found error itself; it has the kind and the prefix of the error
    for a query that failed. *)
Lemma not_found_is_wrapped :
  supabase sample_orchestrator (VStr (lit "999")) = DbRows []
  /\ get_email_artifact plain_str_list sample_orchestrator (VStr (lit "999")) =
       inl (ValueError
              (lit "Failed to retrieve email artifact: " ++
               lit "Email artifact with ID 999 not found"))
  /\ get_email_artifact plain_str_list sample_orchestrator (VStr (lit "999")) <>
       inl (ValueError (lit "Email artifact with ID 999 not found"))
  /\ get_email_artifact plain_str_list sample_orchestrator (VStr (lit "down")) =
       inl (ValueError
              (lit "Failed to retrieve email artifact: " ++
               lit "connection refused")).
Proof. vm_compute. repeat split; discriminate. Qed.

(** ** The default context of [send_email_direct] *)

(** C5. The schema of [send_email_direct] declares the default [""] for
    [context], yet a call without [context] is answered with
    "Context: Direct email", where the same call with [context] set to
    [""] is answered with an empty context. *)
Theorem omitted_context_is_not_the_declared_default :
  declared_default (lit "send_email_direct") (lit "context") = Some (VStr [])
  /\ call_tool plain_str_list accept_all sample_orchestrator
       (lit "send_email_direct")
       (direct_args (VStr (lit "a@x.com")) (VStr (lit "Hi"))
          (VStr (lit "<p>hi</p>")))
       [] =
     (inr [text_content
             (check_mark ++ lit " Email sent successfully!" ++ nl ++
              lit "To: a@x.com" ++ nl ++
              lit "Subject: Hi" ++ nl ++
              lit "Context: Direct email" ++ nl ++
              lit "Content length: 9 characters")],
      [build_message sample_orchestrator (VStr (lit "a@x.com"))
         (VStr (lit "Hi")) (VStr (lit "<p>hi</p>"))])
  /\ call_tool plain_str_list accept_all sample_orchestrator
       (lit "send_email_direct")
       (<[lit "context" := VStr []]>
          (direct_args (VStr (lit "a@x.com")) (VStr (lit "Hi"))
             (VStr (lit "<p>hi</p>"))))
       [] =
     (inr [text_content
             (check_mark ++ lit " Email sent successfully!" ++ nl ++
              lit "To: a@x.com" ++ nl ++
              lit "Subject: Hi" ++ nl ++
              lit "Context: " ++ nl ++
              lit "Content length: 9 characters")],
      [build_message sample_orchestrator (VStr (lit "a@x.com"))
         (VStr (lit "Hi")) (VStr (lit "<p>hi</p>"))]).
Proof. vm_compute. repeat split. Qed.

(** ** Startup *)

Section StartupFacts.

Variable py_int : pystr -> exn + Z.
Variable create_client : pystr -> pystr -> exn + Client.

Local Abbreviation init := (EmailOrchestrator_init py_int create_client).

Lemma init_port_error env s e :
  env !! lit "SMTP_PORT" = Some s -> py_int s = inl e -> init env = inl e.
Proof.
  intros Hs He. unfold EmailOrchestrator_init, getenv.
  rewrite Hs. simpl. now rewrite He.
Qed.

(** C9, as the code has it.  Construction fails when the mail username,
    the mail password, the datastore URL or the datastore key is absent
    or empty, and when the mail port is set to something [int] refuses.
    With the four values present and not empty and the port absent or an
    integer, the configuration is read as it stands, the host defaulting
    to smtp.gmail.com and the port to 587, and construction goes on to
    create the datastore client, succeeding when that does. *)
Theorem startup_reads_configuration (env : gmap pystr pystr) :
  py_int (lit "587") = inr 587%Z ->
  (unset (env !! lit "SMTP_USERNAME") || unset (env !! lit "SMTP_PASSWORD")
   || unset (env !! lit "SUPABASE_URL") || unset (env !! lit "SUPABASE_KEY")
   = true ->
   exists e, init env = inl e)
  /\ (forall s e, env !! lit "SMTP_PORT" = Some s -> py_int s = inl e ->
       init env = inl e)
  /\ (forall username password url key port,
       env !! lit "SMTP_USERNAME" = Some username -> username <> [] ->
       env !! lit "SMTP_PASSWORD" = Some password -> password <> [] ->
       env !! lit "SUPABASE_URL" = Some url -> url <> [] ->
       env !! lit "SUPABASE_KEY" = Some key -> key <> [] ->
       match env !! lit "SMTP_PORT" with
       | None => port = 587%Z
       | Some s => py_int s = inr port
       end ->
       init env =
         match create_client url key with
         | inl e => inl e
         | inr client =>
             inr {| smtp_server :=
                      default (lit "smtp.gmail.com") (env !! lit "SMTP_SERVER");
                    smtp_port := port;
                    smtp_username := username;
                    smtp_password := password;
                    supabase_url := url;
                    supabase_key := key;
                    supabase := client |}
         end).
Proof.
  intros H587. split; [|split].
  - intros Hunset. unfold EmailOrchestrator_init, getenv. cbv zeta.
    destruct (py_int (default _ _)) as [e|port]; [now exists e|].
    destruct (unset (env !! lit "SMTP_USERNAME")),
             (unset (env !! lit "SMTP_PASSWORD")),
             (unset (env !! lit "SUPABASE_URL")),
             (unset (env !! lit "SUPABASE_KEY"));
      try discriminate Hunset; cbn [orb]; eauto.
  - apply init_port_error.
  - intros username password url key port Hu Hun Hp Hpn Hurl Hurln Hk Hkn Hport.
    unfold EmailOrchestrator_init, getenv.
    assert (Hint : py_int (default (lit "587") (env !! lit "SMTP_PORT")) = inr port).
    { destruct (env !! lit "SMTP_PORT"); simpl; [exact Hport | now subst]. }
    rewrite Hint, Hu, Hp, Hurl, Hk. unfold unset.
    rewrite !bool_decide_eq_false_2 by assumption. reflexivity.
Qed.

End StartupFacts.

(** C9 fails as stated: in this environment the four required variables
    are all present, the mail username being the empty string, and
    construction fails; so it does with all four in place when the mail
    port is not an integer. *)
Lemma present_is_not_enough_to_start :
  (forall name, name ∈ [lit "SMTP_USERNAME"; lit "SMTP_PASSWORD";
                        lit "SUPABASE_URL"; lit "SUPABASE_KEY"] ->
     is_Some (<[lit "SMTP_USERNAME" := []]> sample_env !! name))
  /\ EmailOrchestrator_init decimal_int sample_create_client
       (<[lit "SMTP_USERNAME" := []]> sample_env) =
     inl (ValueError
            (lit "SMTP_USERNAME and SMTP_PASSWORD environment variables required"))
  /\ EmailOrchestrator_init decimal_int sample_create_client
       (<[lit "SMTP_PORT" := lit "smtp"]> sample_env) =
     inl (ValueError (lit "invalid literal for int() with base 10: 'smtp'")).
Proof.
  split; [|split; vm_compute; reflexivity].
  intros name Hin.
  repeat (apply elem_of_cons in Hin as [-> | Hin]; [vm_compute; eauto|]).
  now apply elem_of_nil in Hin.
Qed.

(** * The theorems at work on the samples *)

Ltac evaluate := vm_compute; reflexivity.

(** Artifact 124 has an empty title: the call fails and sends nothing. *)
Lemma missing_fields_fail_before_any_send_witness :
  call_tool plain_str_list accept_all sample_orchestrator
    (lit "send_email_from_artifact")
    (artifact_args (VStr alice) (VStr (lit "124"))) [] =
  (inr [text_content
          (cross_mark ++ lit " Error: " ++
           lit "Email artifact missing required fields: title or html_template")],
   []).
Proof.
  apply (missing_fields_fail_before_any_send plain_str_list accept_all
           sample_orchestrator _ [] (VStr alice) (VStr (lit "124")) untitled);
    [evaluate | evaluate | evaluate | left; evaluate].
Defined.

(** Artifact 123 sent to the empty list. *)
Lemma empty_recipient_list_is_an_error_witness :
  call_tool plain_str_list accept_all sample_orchestrator
    (lit "send_email_from_artifact")
    (artifact_args (VList []) (VStr (lit "123"))) [] =
  (inr [text_content
          (cross_mark ++ lit " Error: " ++ lit "list index out of range")],
   []).
Proof.
  apply (empty_recipient_list_is_an_error plain_str_list accept_all
           sample_orchestrator _ [] (VStr (lit "123")) welcome
           (VStr (lit "Welcome")) (VStr (lit "<p>hi</p>")));
    evaluate.
Defined.

(** Two recipients, and a mail server that refuses its second message. *)
Lemma last_send_failure_is_one_error_reply_witness :
  call_tool plain_str_list (refuse_nth 1 (lit "mailbox full")) sample_orchestrator
    (lit "send_email_from_artifact")
    (artifact_args (VList [alice; bob]) (VStr (lit "123"))) [] =
  (inr [text_content
          (cross_mark ++ lit " Error: " ++ lit "Failed to send email: " ++
           lit "mailbox full")],
   [] ++ (message_to sample_orchestrator (VStr (lit "Welcome"))
            (VStr (lit "<p>hi</p>")) <$> [VStr alice])
      ++ [message_to sample_orchestrator (VStr (lit "Welcome"))
            (VStr (lit "<p>hi</p>")) (VStr bob)]).
Proof.
  apply (last_send_failure_is_one_error_reply plain_str_list
           (refuse_nth 1 (lit "mailbox full")) sample_orchestrator _ []
           (VList [alice; bob]) (VStr (lit "123")) welcome
           (VStr (lit "Welcome")) (VStr (lit "<p>hi</p>"))
           [VStr alice] (VStr bob) (lit "mailbox full"));
    evaluate.
Defined.

(** Two recipients, both served: the aggregate confirmation. *)
Lemma all_sent_confirmation_witness :
  exists reply,
    call_tool plain_str_list accept_all sample_orchestrator
      (lit "send_email_from_artifact")
      (artifact_args (VList [alice; bob]) (VStr (lit "123"))) [] =
    (inr [text_content reply],
     [] ++ (message_to sample_orchestrator (VStr (lit "Welcome"))
              (VStr (lit "<p>hi</p>")) <$> [VStr alice; VStr bob]))
    /\ reply =
         check_mark ++ lit " Email sent from artifact to " ++
           str_nat 2 ++ lit " recipients!" ++ nl ++
         lit "To: " ++ join (lit ", ") [alice; bob] ++ nl ++
         lit "Subject: " ++ lit "Welcome" ++ nl ++
         lit "Artifact ID: " ++ lit "123" ++ nl ++
         lit "Artifact Title: " ++ lit "Welcome" ++ nl ++
         lit "Content length: " ++ str_nat 9 ++ lit " characters".
Proof.
  destruct (all_sent_confirmation plain_str_list accept_all sample_orchestrator
              (artifact_args (VList [alice; bob]) (VStr (lit "123"))) []
              (VList [alice; bob]) (VStr (lit "123")) welcome
              (VStr (lit "Welcome")) (VStr (lit "<p>hi</p>")))
    as (reply & Hcall & _ & Hmany); try evaluate.
  exists reply. split; [exact Hcall|].
  apply (Hmany [alice; bob] eq_refl). simpl. lia.
Defined.

(** A direct send of a body of nine characters. *)
Lemma reported_length_is_transmitted_length_witness :
  exists (html : value) (preamble : pystr) (sent : list email),
    call_tool plain_str_list accept_all sample_orchestrator
      (lit "send_email_direct")
      (direct_args (VStr alice) (VStr (lit "Hi")) (VStr (lit "<p>hi</p>"))) [] =
    (inr [text_content
            (direct_reply plain_str_list
               (send_result (VStr alice) (VStr (lit "Hi"))
                  (VStr (lit "Direct email")) 9))],
     [] ++ sent)
    /\ sent <> []
    /\ Forall (fun msg => msg_html msg = html) sent
    /\ py_len html = inr (len_of html)
    /\ (forall h, html = VStr h -> len_of html = length h)
    /\ [text_content
          (direct_reply plain_str_list
             (send_result (VStr alice) (VStr (lit "Hi"))
                (VStr (lit "Direct email")) 9))] =
       [text_content
          (preamble ++ lit "Content length: " ++ str_nat (len_of html) ++
           lit " characters")].
Proof.
  apply (reported_length_is_transmitted_length plain_str_list accept_all
           sample_orchestrator (lit "send_email_direct")
           (direct_args (VStr alice) (VStr (lit "Hi")) (VStr (lit "<p>hi</p>")))
           [] _
           [build_message sample_orchestrator (VStr alice) (VStr (lit "Hi"))
              (VStr (lit "<p>hi</p>"))]).
  evaluate.
Defined.

(** The sample environment yields the sample orchestrator, host and port
    by default. *)
Lemma startup_reads_configuration_witness :
  EmailOrchestrator_init decimal_int sample_create_client sample_env =
    inr sample_orchestrator.
Proof.
  destruct (startup_reads_configuration decimal_int sample_create_client sample_env)
    as (_ & _ & Hread); [evaluate|].
  rewrite (Hread (lit "sender@x.com") (lit "secret") (lit "https://db.example")
             (lit "key") 587%Z); try evaluate;
    try (intros E; vm_compute in E; discriminate E).
Defined.

(** * Further properties of the code *)

(** ** [send_email] and the loop *)

Section MoreSendFacts.

Variable smtp : list email -> email -> option pystr.
Variable self : EmailOrchestrator.
Variables subject html_content context : value.

Local Abbreviation message := (message_to self subject html_content).
Local Abbreviation accepted := (all_accepted smtp self subject html_content).
Local Abbreviation send_all :=
  (send_each smtp self subject html_content context).

(** X1. Whatever the mail server answers, one call of [send_email] hands it
    exactly one message, built from the arguments and the configured
    sender.  The call raises nothing but a [ValueError] whose message
    starts with "Failed to send email: "; when it returns, the mail server
    had accepted the message and the result echoes recipient, subject and
    context and carries [len] of the body. *)
Theorem send_email_hands_over_one_message (to : value) (log : list email) :
  exists outcome,
    send_email smtp self to subject html_content context log =
      (outcome, log ++ [build_message self to subject html_content])
    /\ match outcome with
       | inl e => exists m, e = ValueError (lit "Failed to send email: " ++ m)
       | inr result =>
           smtp log (build_message self to subject html_content) = None
           /\ py_len html_content = inr (res_content_length result)
           /\ res_success result = true
           /\ res_to result = to
           /\ res_subject result = subject
           /\ res_context result = context
       end.
Proof.
  rewrite send_email_run. unfold message_to.
  destruct (smtp log _) as [m|] eqn:Hsmtp.
  - eexists. split; [reflexivity|]. now exists m.
  - destruct (py_len html_content) as [e|n] eqn:Hlen.
    + eexists. split; [reflexivity|]. now exists (exn_str e).
    + eexists. split; [reflexivity|]. now repeat split.
Qed.

(** The loop only ever appends, to the log, the messages of a prefix of
    the recipients. *)
Lemma send_each_prefix (recipients : list value) :
  forall results log,
    exists k,
      snd (send_all recipients results log) =
        log ++ (message <$> take k recipients).
Proof.
  induction recipients as [|r rest IH]; intros results log.
  - exists 0. simpl. now rewrite app_nil_r.
  - simpl. unfold bind. rewrite send_email_run.
    destruct (smtp log (message r)); [now exists 1|].
    destruct (py_len html_content); [now exists 1|].
    destruct (IH (results ++ [send_result r subject context n])
                (log ++ [message r])) as [k Hk].
    exists (S k). rewrite Hk. simpl. now rewrite <- app_assoc.
Qed.


(** The loop raises nothing but the [ValueError] of [send_email]. *)
Lemma send_each_raises_value_error (recipients : list value) :
  forall results log e log',
    send_all recipients results log = (inl e, log') ->
    exists m, e = ValueError (lit "Failed to send email: " ++ m).
Proof.
  induction recipients as [|r rest IH]; intros results log e log' Hrun;
    [discriminate Hrun|].
  simpl in Hrun. unfold bind in Hrun. rewrite send_email_run in Hrun.
  destruct (smtp log (message r)) as [m|];
    [injection Hrun as <- _; now exists m|].
  destruct (py_len html_content) as [e'|n];
    [injection Hrun as <- _; now exists (exn_str e')|].
  now apply IH in Hrun.
Qed.

End MoreSendFacts.

(** ** The dispatcher, further *)

Lemma str_items_raises_type_error (items : list value) :
  forall i e, str_items i items = inl e -> exists m, e = TypeError m.
Proof.
  induction items as [|v rest IH]; intros i e H; [discriminate H|].
  destruct v; simpl in H; try (injection H as <-; eauto).
  destruct (str_items (S i) rest) eqn:Hrest; [|discriminate H].
  injection H as <-. eauto.
Qed.

Section MoreDispatchFacts.

Variable str_list : list pystr -> pystr.
Variable smtp : list email -> email -> option pystr.
Variable self : EmailOrchestrator.

Local Abbreviation body := (call_tool_body str_list smtp self).
Local Abbreviation call := (call_tool str_list smtp self).
Local Abbreviation fetch := (get_email_artifact str_list self).

(** The [except] clause leaves the log as the body left it. *)
Lemma call_log name args log :
  snd (call name args log) = snd (body name args log).
Proof.
  unfold call_tool, try_except. now destruct (body name args log) as [[e|r] l].
Qed.

(** What follows the loop sends nothing. *)
Lemma after_the_loop_log (to artifact_id : value) (artifact : dict)
    (results : list SendResult) (log : list email) :
  snd ((if decide (length (recipients_of to) = 1) then
          do result <- lift (first_item results);
          ret [text_content (single_reply str_list result artifact_id artifact)]
        else
          do recipient_list <- lift (join_values (lit ", ") (res_to <$> results));
          do first <- lift (first_item results);
          ret [text_content
                 (aggregate_reply str_list (length (recipients_of to))
                    recipient_list first artifact_id artifact)]) log) = log.
Proof.
  unfold bind, lift, raise, ret.
  destruct (decide _).
  - now destruct (first_item results).
  - destruct (join_values _ _); [reflexivity|]. now destruct (first_item results).
Qed.

(** The messages of one call of [send_email_from_artifact] go to a prefix
    of the recipients. *)
Lemma body_artifact_log args log to :
  args !! lit "to" = Some to ->
  exists k subject html_content,
    snd (body (lit "send_email_from_artifact") args log) =
      log ++ (message_to self subject html_content <$> take k (recipients_of to)).
Proof.
  intros Hto.
  assert (Hnone : forall l : list email,
             l = l ++ (message_to self VNone VNone <$> take 0 (recipients_of to)))
    by (intros l; simpl; now rewrite app_nil_r).
  destruct (args !! lit "artifact_id") as [artifact_id|] eqn:Hid.
  - destruct (fetch artifact_id) as [e|artifact] eqn:Hfetch.
    + exists 0, VNone, VNone. rewrite <- Hnone.
      unfold call_tool_body.
      destruct (decide (_ = lit "send_email_direct")) as [E|_];
        [now apply artifact_is_not_direct in E|].
      destruct (decide (_ = _)) as [_|N]; [|contradiction].
      unfold subscript. rewrite Hto, Hid.
      cbv beta iota delta [bind lift ret raise]. now rewrite Hfetch.
    + rewrite (body_artifact _ _ _ _ _ _ _ _ Hto Hid Hfetch). cbv zeta.
      destruct (missing _ _ || missing _ _);
        [exists 0, VNone, VNone; now rewrite <- Hnone|].
      set (subject := dict_get artifact (lit "title") (VStr [])).
      set (html := dict_get artifact (lit "html_template") (VStr [])).
      set (context := VStr _).
      destruct (send_each_prefix smtp self subject html context
                  (recipients_of to) [] log) as [k Hk].
      exists k, subject, html. unfold bind at 1.
      destruct (send_each _ _ _ _ _ _ _ _) as [[e|results] log1];
        simpl in Hk; subst log1; [reflexivity|].
      apply after_the_loop_log.
  - exists 0, VNone, VNone. rewrite <- Hnone.
    unfold call_tool_body.
    destruct (decide (_ = lit "send_email_direct")) as [E|_];
      [now apply artifact_is_not_direct in E|].
    destruct (decide (_ = _)) as [_|N]; [|contradiction].
    unfold subscript. now rewrite Hto, Hid.
Qed.

(** X2. [send_email_direct] with its three arguments and a mail server
    that accepts the message: one message is handed over and the reply is
    the confirmation with recipient, subject, context and content length,
    the context being the argument [context] when given and
    "Direct email" otherwise. *)
Theorem direct_send_confirmation
    (args : dict) (log : list email) (to subject html_content : value) (n : nat) :
  args !! lit "to" = Some to ->
  args !! lit "subject" = Some subject ->
  args !! lit "html_content" = Some html_content ->
  py_len html_content = inr n ->
  smtp log (build_message self to subject html_content) = None ->
  call (lit "send_email_direct") args log =
    (inr [text_content
            (check_mark ++ lit " Email sent successfully!" ++ nl ++
             lit "To: " ++ py_str str_list to ++ nl ++
             lit "Subject: " ++ py_str str_list subject ++ nl ++
             lit "Context: " ++
               py_str str_list
                 (default (VStr (lit "Direct email")) (args !! lit "context")) ++
               nl ++
             lit "Content length: " ++ str_nat n ++ lit " characters")],
     log ++ [build_message self to subject html_content]).
Proof.
  intros Hto Hsub Hhtml Hlen Hsmtp.
  apply call_tool_returned.
  rewrite (body_direct _ _ _ _ _ _ _ _ Hto Hsub Hhtml).
  unfold bind. rewrite send_email_run. unfold message_to.
  now rewrite Hsmtp, Hlen.
Qed.

(** X3. [send_email_direct] with a mail server that refuses the message
    with [m]: the one message was handed over, and the reply is the error
    reply for "Failed to send email: " and [m]. *)
Theorem direct_send_failure
    (args : dict) (log : list email) (to subject html_content : value) (m : pystr) :
  args !! lit "to" = Some to ->
  args !! lit "subject" = Some subject ->
  args !! lit "html_content" = Some html_content ->
  smtp log (build_message self to subject html_content) = Some m ->
  call (lit "send_email_direct") args log =
    (inr [text_content
            (cross_mark ++ lit " Error: " ++ lit "Failed to send email: " ++ m)],
     log ++ [build_message self to subject html_content]).
Proof.
  intros Hto Hsub Hhtml Hsmtp.
  apply (call_tool_raised _ _ _ _ _ _ (ValueError _)).
  rewrite (body_direct _ _ _ _ _ _ _ _ Hto Hsub Hhtml).
  unfold bind. rewrite send_email_run. unfold message_to.
  now rewrite Hsmtp.
Qed.

(** X4. The first refused message ends the loop: the recipients before it
    were sent to in order, the ones after it are never handed to the mail
    server, and the reply is the one error reply for that failure. *)
Theorem first_failure_aborts_remaining
    (args : dict) (log : list email) (to artifact_id : value)
    (artifact : dict) (title template : value)
    (before : list value) (r : value) (after : list value) (m : pystr) :
  args !! lit "to" = Some to ->
  args !! lit "artifact_id" = Some artifact_id ->
  fetch artifact_id = inr artifact ->
  artifact !! lit "title" = Some title -> truthy title = true ->
  artifact !! lit "html_template" = Some template -> truthy template = true ->
  recipients_of to = before ++ r :: after ->
  all_accepted smtp self title template log before = true ->
  smtp (log ++ (message_to self title template <$> before))
       (message_to self title template r) = Some m ->
  call (lit "send_email_from_artifact") args log =
    (inr [text_content
            (cross_mark ++ lit " Error: " ++ lit "Failed to send email: " ++ m)],
     log ++ (message_to self title template <$> before)
         ++ [message_to self title template r]).
Proof.
  intros Hto Hid Hfetch Ht Htt Hh Hht Hrec Hacc Hrej.
  apply (call_tool_raised _ _ _ _ _ _ (ValueError _)).
  rewrite (body_artifact_valid _ _ _ _ _ _ _ _ _ _ Hto Hid Hfetch Ht Htt Hh Hht).
  unfold bind at 1. rewrite Hrec.
  rewrite (send_each_rejected _ _ _ _ _ _ _ _ _ _ (truthy_len_of _ Hht) _ _ Hacc Hrej).
  reflexivity.
Qed.

(** X5. When the artifact cannot be fetched, because the query has no row
    or because it failed with [m], [send_email_from_artifact] answers with
    the error reply for the retrieval failure and hands nothing to the
    mail server. *)
Theorem fetch_failure_sends_nothing
    (args : dict) (log : list email) (to artifact_id : value) :
  args !! lit "to" = Some to ->
  args !! lit "artifact_id" = Some artifact_id ->
  (supabase self artifact_id = DbRows [] ->
   call (lit "send_email_from_artifact") args log =
     (inr [text_content
             (cross_mark ++ lit " Error: " ++
              lit "Failed to retrieve email artifact: " ++
              lit "Email artifact with ID " ++ py_str str_list artifact_id ++
              lit " not found")],
      log))
  /\ (forall m, supabase self artifact_id = DbFailure m ->
      call (lit "send_email_from_artifact") args log =
        (inr [text_content
                (cross_mark ++ lit " Error: " ++
                 lit "Failed to retrieve email artifact: " ++ m)],
         log)).
Proof.
  intros Hto Hid.
  assert (Hbody : forall e, fetch artifact_id = inl e ->
            body (lit "send_email_from_artifact") args log = (inl e, log)).
  { intros e He. unfold call_tool_body.
    destruct (decide (_ = lit "send_email_direct")) as [E|_];
      [now apply artifact_is_not_direct in E|].
    destruct (decide (_ = _)) as [_|N]; [|contradiction].
    unfold subscript. rewrite Hto, Hid.
    cbv beta iota delta [bind lift ret raise]. now rewrite He. }
  split.
  - intros Hdb. apply (call_tool_raised _ _ _ _ _ _ (ValueError _)).
    apply Hbody. unfold get_email_artifact, catch. now rewrite Hdb.
  - intros m Hdb. apply (call_tool_raised _ _ _ _ _ _ (ValueError _)).
    apply Hbody. unfold get_email_artifact, catch. now rewrite Hdb.
Qed.

(** X6. A call of [send_email_from_artifact] hands the mail server the
    messages of the first [k] recipients, for some [k], in the order of
    the list and all with one subject and one body: nobody outside the
    list is written to, nobody is skipped, and the log it found is kept. *)
Theorem artifact_messages_follow_the_list
    (args : dict) (log : list email) (to : value) :
  args !! lit "to" = Some to ->
  exists k subject html_content,
    snd (call (lit "send_email_from_artifact") args log) =
      log ++ (message_to self subject html_content <$> take k (recipients_of to)).
Proof.
  intros Hto. rewrite call_log. now apply body_artifact_log.
Qed.

(** X7. Whatever the tool name and the arguments, a call only appends to
    the log of the mail server, and every message it appends is from the
    configured mail username. *)
Theorem calls_only_append_messages_from_the_sender
    (name : pystr) (args : dict) (log : list email) :
  exists sent,
    snd (call name args log) = log ++ sent
    /\ Forall (fun msg => msg_from msg = smtp_username self) sent.
Proof.
  rewrite call_log.
  assert (Hnone : forall l : list email, l = l ++ [] /\
             Forall (fun msg => msg_from msg = smtp_username self) [])
    by (intros l; now rewrite app_nil_r).
  destruct (decide (name = lit "send_email_direct")) as [->|Hnd].
  - unfold call_tool_body.
    destruct (decide (_ = _)) as [_|N]; [|contradiction].
    unfold subscript, bind, lift, raise, ret.
    destruct (args !! lit "to") as [to|]; [|now exists []].
    destruct (args !! lit "subject") as [subject|]; [|now exists []].
    destruct (args !! lit "html_content") as [html|]; [|now exists []].
    rewrite send_email_run.
    exists [message_to self subject html to].
    destruct (smtp log _); [now repeat constructor|].
    destruct (py_len html); now repeat constructor.
  - destruct (decide (name = lit "send_email_from_artifact")) as [->|Hna];
      [|rewrite (body_unknown _ _ _ _ _ _ Hnd Hna); now exists []].
    destruct (args !! lit "to") as [to|] eqn:Hto.
    + destruct (body_artifact_log _ log _ Hto) as (k & subject & html & ->).
      eexists. split; [reflexivity|].
      apply Forall_fmap, Forall_forall. now intros.
    + exists []. unfold call_tool_body.
      destruct (decide (_ = lit "send_email_direct")) as [E|_];
        [now apply artifact_is_not_direct in E|].
      destruct (decide (_ = _)) as [_|N]; [|contradiction].
      unfold subscript. now rewrite Hto.
Qed.

(** X8. With every argument its schema requires in place, the body of
    [call_tool] never raises a [KeyError]: the handler subscripts no
    argument that [list_tools] does not declare as required. *)
Theorem required_arguments_suffice
    (name : pystr) (args : dict) (log : list email) (tool : Tool) :
  tool ∈ list_tools ->
  tool_name tool = name ->
  (forall key, key ∈ tool_required tool -> is_Some (args !! key)) ->
  forall k l, body name args log <> (inl (KeyError k), l).
Proof.
  intros Hin <- Hall k l Hrun.
  unfold list_tools in Hin.
  apply elem_of_cons in Hin as [-> | Hin];
    [|apply list_elem_of_singleton in Hin as ->];
    cbn [tool_name tool_required] in *.
  - destruct (Hall (lit "to")) as [to Hto]; [in_list|].
    destruct (Hall (lit "subject")) as [subject Hsub]; [in_list|].
    destruct (Hall (lit "html_content")) as [html Hhtml]; [in_list|].
    rewrite (body_direct _ _ _ _ _ _ _ _ Hto Hsub Hhtml) in Hrun.
    unfold bind in Hrun. rewrite send_email_run in Hrun.
    destruct (smtp log _); [discriminate Hrun|].
    destruct (py_len html); discriminate Hrun.
  - destruct (Hall (lit "to")) as [to Hto]; [in_list|].
    destruct (Hall (lit "artifact_id")) as [artifact_id Hid]; [in_list|].
    destruct (fetch artifact_id) as [e|artifact] eqn:Hfetch.
    + unfold call_tool_body in Hrun.
      destruct (decide (_ = lit "send_email_direct")) as [E|_];
        [now apply artifact_is_not_direct in E|].
      destruct (decide (_ = _)) as [_|N]; [|contradiction].
      unfold subscript in Hrun. rewrite Hto, Hid in Hrun.
      cbv beta iota delta [bind lift ret raise] in Hrun.
      rewrite Hfetch in Hrun. injection Hrun as -> _.
      unfold get_email_artifact, catch in Hfetch.
      destruct (supabase self artifact_id) as [[|row rows]|m];
        discriminate Hfetch.
    + rewrite (body_artifact _ _ _ _ _ _ _ _ Hto Hid Hfetch) in Hrun.
      cbv zeta in Hrun.
      destruct (missing _ _ || missing _ _); [discriminate Hrun|].
      unfold bind at 1 in Hrun.
      destruct (send_each _ _ _ _ _ _ _ _) as [[e|results] log1] eqn:Hloop.
      * injection Hrun as -> _.
        apply send_each_raises_value_error in Hloop as [m Hm].
        discriminate Hm.
      * unfold bind, lift, raise, ret in Hrun.
        destruct (decide _).
        -- destruct (first_item results) eqn:Hfirst; [|discriminate Hrun].
           unfold first_item in Hfirst.
           destruct (results !! 0); [discriminate Hfirst|].
           injection Hfirst as <-. discriminate Hrun.
        -- destruct (join_values _ _) as [e|joined] eqn:Hjoin.
           ++ injection Hrun as -> _. unfold join_values in Hjoin.
              destruct (str_items 0 _) as [e|ss] eqn:Hitems; [|discriminate Hjoin].
              injection Hjoin as ->.
              apply str_items_raises_type_error in Hitems as [m Hm].
              discriminate Hm.
           ++ destruct (first_item results) eqn:Hfirst; [|discriminate Hrun].
              unfold first_item in Hfirst.
              destruct (results !! 0); [discriminate Hfirst|].
              injection Hfirst as <-. discriminate Hrun.
Qed.

(** X9. [send_email_from_artifact] reads the arguments [to] and
    [artifact_id] and no other: two argument objects that agree on these
    two get the same reply and the same sends. *)
Theorem artifact_tool_reads_two_arguments
    (args args' : dict) (log : list email) :
  args !! lit "to" = args' !! lit "to" ->
  args !! lit "artifact_id" = args' !! lit "artifact_id" ->
  call (lit "send_email_from_artifact") args log =
  call (lit "send_email_from_artifact") args' log.
Proof.
  intros Hto Hid. unfold call_tool, call_tool_body, try_except.
  destruct (decide (_ = lit "send_email_direct")) as [E|_];
    [now apply artifact_is_not_direct in E|].
  destruct (decide (_ = _)) as [_|N]; [|contradiction].
  unfold subscript. now rewrite Hto, Hid.
Qed.

(** X10. [send_email_direct] reads [to], [subject], [html_content] and
    [context] and no other argument. *)
Theorem direct_tool_reads_four_arguments
    (args args' : dict) (log : list email) :
  args !! lit "to" = args' !! lit "to" ->
  args !! lit "subject" = args' !! lit "subject" ->
  args !! lit "html_content" = args' !! lit "html_content" ->
  args !! lit "context" = args' !! lit "context" ->
  call (lit "send_email_direct") args log =
  call (lit "send_email_direct") args' log.
Proof.
  intros Hto Hsub Hhtml Hctx. unfold call_tool, call_tool_body, try_except.
  destruct (decide (_ = _)) as [_|N]; [|contradiction].
  unfold subscript, dict_get. now rewrite Hto, Hsub, Hhtml, Hctx.
Qed.

(** X11. [send_email_direct] never consults the datastore: with any other
    datastore client in the orchestrator the call goes the same way. *)
Theorem direct_tool_ignores_the_datastore
    (client : Client) (args : dict) (log : list email) :
  call_tool str_list smtp (with_supabase self client)
    (lit "send_email_direct") args log =
  call (lit "send_email_direct") args log.
Proof.
  unfold call_tool, call_tool_body, try_except.
  destruct (decide (_ = _)) as [_|N]; [|contradiction].
  reflexivity.
Qed.


End MoreDispatchFacts.

(** ** Startup, further *)

Section MoreStartupFacts.

Variable py_int : pystr -> exn + Z.

(** X13. An orchestrator that was constructed holds, as mail username,
    mail password, datastore URL and datastore key, the values of the four
    environment variables, none of them empty; its host is SMTP_SERVER or
    smtp.gmail.com, its port is [int] of SMTP_PORT or of "587", and its
    client is the one created from its URL and key. *)
Theorem constructed_orchestrator_holds_the_environment
    (create_client : pystr -> pystr -> exn + Client)
    (env : gmap pystr pystr) (o : EmailOrchestrator) :
  EmailOrchestrator_init py_int create_client env = inr o ->
  (env !! lit "SMTP_USERNAME" = Some (smtp_username o) /\ smtp_username o <> [])
  /\ (env !! lit "SMTP_PASSWORD" = Some (smtp_password o) /\ smtp_password o <> [])
  /\ (env !! lit "SUPABASE_URL" = Some (supabase_url o) /\ supabase_url o <> [])
  /\ (env !! lit "SUPABASE_KEY" = Some (supabase_key o) /\ supabase_key o <> [])
  /\ smtp_server o = default (lit "smtp.gmail.com") (env !! lit "SMTP_SERVER")
  /\ py_int (default (lit "587") (env !! lit "SMTP_PORT")) = inr (smtp_port o)
  /\ create_client (supabase_url o) (supabase_key o) = inr (supabase o).
Proof.
  unfold EmailOrchestrator_init, getenv. cbv zeta.
  destruct (py_int (default _ _)) as [e|port]; [intros H; discriminate H|].
  destruct (env !! lit "SMTP_USERNAME") as [u|]; cbn [unset orb];
    [|intros H; discriminate H].
  destruct (env !! lit "SMTP_PASSWORD") as [p|]; cbn [unset];
    [|rewrite orb_true_r; intros H; discriminate H].
  destruct (bool_decide (u = [])) eqn:Hu; cbn [orb]; [intros H; discriminate H|].
  destruct (bool_decide (p = [])) eqn:Hp; [intros H; discriminate H|].
  destruct (env !! lit "SUPABASE_URL") as [url|]; cbn [unset orb];
    [|intros H; discriminate H].
  destruct (env !! lit "SUPABASE_KEY") as [key|]; cbn [unset];
    [|rewrite orb_true_r; intros H; discriminate H].
  destruct (bool_decide (url = [])) eqn:Hurl; cbn [orb]; [intros H; discriminate H|].
  destruct (bool_decide (key = [])) eqn:Hkey; [intros H; discriminate H|].
  cbn [default from_option id].
  destruct (create_client url key) as [e|client] eqn:Hclient; cbv beta iota;
    [intros H; discriminate H|].
  intros [= <-]. cbn.
  apply bool_decide_eq_false_1 in Hu, Hp, Hurl, Hkey.
  now repeat split.
Qed.


(** X15. The error of an incomplete configuration, the mail port being
    fine: it names SMTP_USERNAME and SMTP_PASSWORD when either is absent
    or empty, whatever the datastore settings are, and names SUPABASE_URL
    and SUPABASE_KEY when the mail credentials are there and either of
    these is absent or empty. *)
Theorem startup_error_names_what_is_missing
    (create_client : pystr -> pystr -> exn + Client)
    (env : gmap pystr pystr) (port : Z) :
  py_int (default (lit "587") (env !! lit "SMTP_PORT")) = inr port ->
  (unset (env !! lit "SMTP_USERNAME") || unset (env !! lit "SMTP_PASSWORD") = true ->
   EmailOrchestrator_init py_int create_client env =
     inl (ValueError
            (lit "SMTP_USERNAME and SMTP_PASSWORD environment variables required")))
  /\ (unset (env !! lit "SMTP_USERNAME") || unset (env !! lit "SMTP_PASSWORD") = false ->
      unset (env !! lit "SUPABASE_URL") || unset (env !! lit "SUPABASE_KEY") = true ->
      EmailOrchestrator_init py_int create_client env =
        inl (ValueError
               (lit "SUPABASE_URL and SUPABASE_KEY environment variables required"))).
Proof.
  intros Hport. unfold EmailOrchestrator_init, getenv. cbv zeta.
  rewrite Hport. split.
  - now intros ->.
  - now intros -> ->.
Qed.

End MoreStartupFacts.

(** * The further properties at work on the samples *)

(** A direct send that the mail server accepts. *)
Lemma direct_send_confirmation_witness :
  call_tool plain_str_list accept_all sample_orchestrator
    (lit "send_email_direct")
    (direct_args (VStr alice) (VStr (lit "Hi")) (VStr (lit "<p>hi</p>"))) [] =
  (inr [text_content
          (check_mark ++ lit " Email sent successfully!" ++ nl ++
           lit "To: " ++ py_str plain_str_list (VStr alice) ++ nl ++
           lit "Subject: " ++ py_str plain_str_list (VStr (lit "Hi")) ++ nl ++
           lit "Context: " ++
             py_str plain_str_list
               (default (VStr (lit "Direct email"))
                  (direct_args (VStr alice) (VStr (lit "Hi"))
                     (VStr (lit "<p>hi</p>")) !! lit "context")) ++
             nl ++
           lit "Content length: " ++ str_nat 9 ++ lit " characters")],
   [] ++ [build_message sample_orchestrator (VStr alice) (VStr (lit "Hi"))
            (VStr (lit "<p>hi</p>"))]).
Proof.
  apply (direct_send_confirmation plain_str_list accept_all sample_orchestrator
           _ [] (VStr alice) (VStr (lit "Hi")) (VStr (lit "<p>hi</p>")) 9);
    evaluate.
Defined.

(** A direct send that the mail server refuses. *)
Lemma direct_send_failure_witness :
  call_tool plain_str_list (refuse_nth 0 (lit "mailbox full")) sample_orchestrator
    (lit "send_email_direct")
    (direct_args (VStr alice) (VStr (lit "Hi")) (VStr (lit "<p>hi</p>"))) [] =
  (inr [text_content
          (cross_mark ++ lit " Error: " ++ lit "Failed to send email: " ++
           lit "mailbox full")],
   [] ++ [build_message sample_orchestrator (VStr alice) (VStr (lit "Hi"))
            (VStr (lit "<p>hi</p>"))]).
Proof.
  apply (direct_send_failure plain_str_list (refuse_nth 0 (lit "mailbox full"))
           sample_orchestrator _ [] (VStr alice) (VStr (lit "Hi"))
           (VStr (lit "<p>hi</p>")) (lit "mailbox full"));
    evaluate.
Defined.

(** Three recipients, the second refused: the third is never written to. *)
Lemma first_failure_aborts_remaining_witness :
  call_tool plain_str_list (refuse_nth 1 (lit "mailbox full")) sample_orchestrator
    (lit "send_email_from_artifact")
    (artifact_args (VList [alice; bob; carol]) (VStr (lit "123"))) [] =
  (inr [text_content
          (cross_mark ++ lit " Error: " ++ lit "Failed to send email: " ++
           lit "mailbox full")],
   [] ++ (message_to sample_orchestrator (VStr (lit "Welcome"))
            (VStr (lit "<p>hi</p>")) <$> [VStr alice])
      ++ [message_to sample_orchestrator (VStr (lit "Welcome"))
            (VStr (lit "<p>hi</p>")) (VStr bob)]).
Proof.
  apply (first_failure_aborts_remaining plain_str_list
           (refuse_nth 1 (lit "mailbox full")) sample_orchestrator _ []
           (VList [alice; bob; carol]) (VStr (lit "123")) welcome
           (VStr (lit "Welcome")) (VStr (lit "<p>hi</p>"))
           [VStr alice] (VStr bob) [VStr carol] (lit "mailbox full"));
    evaluate.
Defined.

(** No artifact 999 in the sample store. *)
Lemma fetch_failure_sends_nothing_witness :
  call_tool plain_str_list accept_all sample_orchestrator
    (lit "send_email_from_artifact")
    (artifact_args (VStr alice) (VStr (lit "999"))) [] =
  (inr [text_content
          (cross_mark ++ lit " Error: " ++
           lit "Failed to retrieve email artifact: " ++
           lit "Email artifact with ID " ++
           py_str plain_str_list (VStr (lit "999")) ++ lit " not found")],
   []).
Proof.
  destruct (fetch_failure_sends_nothing plain_str_list accept_all
              sample_orchestrator
              (artifact_args (VStr alice) (VStr (lit "999"))) []
              (VStr alice) (VStr (lit "999")))
    as [Hnone _]; [evaluate | evaluate |].
  apply Hnone. evaluate.
Defined.

Lemma artifact_messages_follow_the_list_witness :
  exists k subject html_content,
    snd (call_tool plain_str_list (refuse_nth 1 (lit "mailbox full"))
           sample_orchestrator (lit "send_email_from_artifact")
           (artifact_args (VList [alice; bob; carol]) (VStr (lit "123"))) []) =
      [] ++ (message_to sample_orchestrator subject html_content
               <$> take k (recipients_of (VList [alice; bob; carol]))).
Proof.
  apply (artifact_messages_follow_the_list plain_str_list
           (refuse_nth 1 (lit "mailbox full")) sample_orchestrator
           (artifact_args (VList [alice; bob; carol]) (VStr (lit "123"))) []
           (VList [alice; bob; carol])).
  evaluate.
Defined.

(** Both arguments are there and the artifact is not: no [KeyError]. *)
Lemma required_arguments_suffice_witness :
  is_Some (artifact_args (VStr alice) (VStr (lit "999")) !! lit "to")
  /\ is_Some (artifact_args (VStr alice) (VStr (lit "999")) !! lit "artifact_id")
  /\ forall k l,
       call_tool_body plain_str_list accept_all sample_orchestrator
         (lit "send_email_from_artifact")
         (artifact_args (VStr alice) (VStr (lit "999"))) [] <>
       (inl (KeyError k), l).
Proof.
  split; [vm_compute; eauto|]. split; [vm_compute; eauto|].
  apply (required_arguments_suffice plain_str_list accept_all sample_orchestrator
           (lit "send_email_from_artifact")
           (artifact_args (VStr alice) (VStr (lit "999"))) []
           {| tool_name := lit "send_email_from_artifact";
              tool_properties :=
                [ {| prop_name := lit "to"; prop_default := None |};
                  {| prop_name := lit "artifact_id"; prop_default := None |} ];
              tool_required := [lit "to"; lit "artifact_id"] |}).
  - unfold list_tools. apply list_elem_of_further, list_elem_of_here.
  - reflexivity.
  - intros key Hkey. cbn [tool_required] in Hkey.
    repeat (apply elem_of_cons in Hkey as [-> | Hkey]; [vm_compute; eauto|]).
    now apply elem_of_nil in Hkey.
Defined.

(** An argument the tool does not know changes nothing. *)
Lemma artifact_tool_reads_two_arguments_witness :
  call_tool plain_str_list accept_all sample_orchestrator
    (lit "send_email_from_artifact")
    (artifact_args (VStr alice) (VStr (lit "123"))) [] =
  call_tool plain_str_list accept_all sample_orchestrator
    (lit "send_email_from_artifact")
    (<[lit "context" := VStr (lit "Newsletter")]>
       (artifact_args (VStr alice) (VStr (lit "123")))) [].
Proof.
  apply (artifact_tool_reads_two_arguments plain_str_list accept_all
           sample_orchestrator); evaluate.
Defined.

Lemma direct_tool_reads_four_arguments_witness :
  call_tool plain_str_list accept_all sample_orchestrator
    (lit "send_email_direct")
    (direct_args (VStr alice) (VStr (lit "Hi")) (VStr (lit "<p>hi</p>"))) [] =
  call_tool plain_str_list accept_all sample_orchestrator
    (lit "send_email_direct")
    (<[lit "artifact_id" := VStr (lit "123")]>
       (direct_args (VStr alice) (VStr (lit "Hi")) (VStr (lit "<p>hi</p>")))) [].
Proof.
  apply (direct_tool_reads_four_arguments plain_str_list accept_all
           sample_orchestrator); evaluate.
Defined.


Lemma constructed_orchestrator_holds_the_environment_witness :
  (sample_env !! lit "SMTP_USERNAME" = Some (smtp_username sample_orchestrator)
   /\ smtp_username sample_orchestrator <> [])
  /\ (sample_env !! lit "SMTP_PASSWORD" = Some (smtp_password sample_orchestrator)
      /\ smtp_password sample_orchestrator <> [])
  /\ (sample_env !! lit "SUPABASE_URL" = Some (supabase_url sample_orchestrator)
      /\ supabase_url sample_orchestrator <> [])
  /\ (sample_env !! lit "SUPABASE_KEY" = Some (supabase_key sample_orchestrator)
      /\ supabase_key sample_orchestrator <> [])
  /\ smtp_server sample_orchestrator =
       default (lit "smtp.gmail.com") (sample_env !! lit "SMTP_SERVER")
  /\ decimal_int (default (lit "587") (sample_env !! lit "SMTP_PORT")) =
       inr (smtp_port sample_orchestrator)
  /\ sample_create_client (supabase_url sample_orchestrator)
       (supabase_key sample_orchestrator) =
     inr (supabase sample_orchestrator).
Proof.
  apply (constructed_orchestrator_holds_the_environment decimal_int
           sample_create_client sample_env sample_orchestrator).
  evaluate.
Defined.


(** Nothing in the environment: the mail credentials are named first. *)
Lemma startup_error_names_what_is_missing_witness :
  EmailOrchestrator_init decimal_int sample_create_client ∅ =
    inl (ValueError
           (lit "SMTP_USERNAME and SMTP_PASSWORD environment variables required")).
Proof.
  destruct (startup_error_names_what_is_missing decimal_int sample_create_client
              ∅ 587%Z) as [Hmail _]; [evaluate|].
  apply Hmail. evaluate.
Defined.
